(** * Draftworx Context: range capture and replication engine

    A shallow embedding of the TypeScript sources
      - src/taskpane/taskpane.ts   (coordinate arithmetic, start-cell parsing)
      - src/lib/range.ts           (captureSelection, pasteRange)
      - src/lib/sheet.ts           (createSheet, generateUniqueSheetName)
      - src/lib/automations.ts     (copySelectionToNewSheet, duplicateSelection)
    together with the properties stated about them.

    Conventions of the embedding.
      - A JavaScript [number] that holds an integer is a [Js.number]: a
        double with its rounding above [2 ** 53], its infinities and [NaN].
        Sheet positions and the sizes of a range, which the sources only
        pass on to the host or count up to, are [Z].
      - A JavaScript string is a [string]: a sequence of code units below 256.
      - A loop is a structural recursion where the code bounds it, and a
        recursion on a step bound that ends in [Js.Running] where it does
        not.
      - Asynchronous host code is a state-and-exception computation over a
        request context (see [Module Office]). *)

From Stdlib Require Import ZArith Ascii String List Lia.
From stdpp Require Import base decidable numbers option list strings pretty gmap.

Local Open Scope Z_scope.
Local Open Scope string_scope.
Local Open Scope list_scope.

(** ** JavaScript primitives *)

Module Js.

(** [s.charCodeAt(i)] for the code unit [c] at position [i]. *)
Definition charCode (c : ascii) : Z := Z.of_N (N_of_ascii c).

(** [c.toLowerCase()] on one code unit below 256: the ASCII capitals and the
    Latin-1 capitals (U+00C0 to U+00DE, the multiplication sign U+00D7
    excepted) move up by 32, every other code unit is unchanged. *)
Definition toLowerCase_char (c : ascii) : ascii :=
  let n := N_of_ascii c in
  if ((65 <=? n) && (n <=? 90))%N
     || ((192 <=? n) && (n <=? 222) && negb (n =? 215))%N
  then ascii_of_N (n + 32)
  else c.

(** [s.toLowerCase()]. *)
Fixpoint toLowerCase (s : string) : string :=
  match s with
  | EmptyString => EmptyString
  | String c rest => String (toLowerCase_char c) (toLowerCase rest)
  end.

(** The character classes of the regular expressions [/[A-Z]+/] and
    [/\d+/]. *)
Definition is_upper (c : ascii) : bool :=
  let n := N_of_ascii c in ((65 <=? n) && (n <=? 90))%N.

Definition is_digit (c : ascii) : bool :=
  let n := N_of_ascii c in ((48 <=? n) && (n <=? 57))%N.

(** Whether [s] consists of characters of class [p] only. *)
Fixpoint all_chars (p : ascii -> bool) (s : string) : bool :=
  match s with
  | EmptyString => true
  | String c rest => p c && all_chars p rest
  end.

(** The longest prefix of [s] made of characters of class [p]. *)
Fixpoint take_run (p : ascii -> bool) (s : string) : string :=
  match s with
  | EmptyString => EmptyString
  | String c rest => if p c then String c (take_run p rest) else EmptyString
  end.

(** [s.match(/[p]+/)?.[0]]: the leftmost, longest non-empty run of
    characters of class [p]; [None] (undefined) when [s] has none. *)
Fixpoint match_run (p : ascii -> bool) (s : string) : option string :=
  match s with
  | EmptyString => None
  | String c rest =>
      if p c then Some (String c (take_run p rest)) else match_run p rest
  end.

(** [s.split(sep)] for a separator of one character. *)
Fixpoint split_loop (sep : ascii) (s : string) (cur : string) : list string :=
  match s with
  | EmptyString => [String.rev cur]
  | String c rest =>
      if Ascii.eqb c sep then String.rev cur :: split_loop sep rest ""
      else split_loop sep rest (String c cur)
  end.

Definition split (sep : ascii) (s : string) : list string :=
  split_loop sep s "".

(** [s.includes(sep)] for a separator of one character. *)
Fixpoint includes (sep : ascii) (s : string) : bool :=
  match s with
  | EmptyString => false
  | String c rest => Ascii.eqb c sep || includes sep rest
  end.

(** [a || b] on strings: the empty string is falsy. *)
Definition or_else (a : option string) (b : string) : string :=
  match a with
  | Some (String c rest) => String c rest
  | _ => b
  end.

(** A thrown value as the [catch] clauses of the automations read it:
    an [Error] object carries a message, any other value is rendered by
    [String(error)]. *)
Inductive Thrown : Type :=
| ErrorObject (message : string)
| OtherValue (rendered : string).

(** [error instanceof Error ? error.message : String(error)] *)
Definition error_text (error : Thrown) : string :=
  match error with
  | ErrorObject message => message
  | OtherValue rendered => rendered
  end.

(** How an evaluation ends: it returns, or it throws (for [async] code,
    the promise rejects), or a loop is still running when the step bound
    of the model is spent. *)
Inductive Completion (A : Type) : Type :=
| Return (a : A)
| Throw (error : Thrown)
| Running.
Arguments Return {A}.
Arguments Throw {A}.
Arguments Running {A}.

(** The numbers of the sources are IEEE 754 doubles that hold integers:
    loop counters, character codes, column numbers and row numbers.
    [Finite z] is the double whose value is the integer [z]; the arithmetic
    below rounds to the nearest double, ties to even, as the language
    prescribes.  Negative zero is not told apart from zero: no operation
    below gives another result on it. *)
Local Open Scope Z_scope.

Inductive number : Type :=
| Finite (z : Z)
| PosInfinity
| NegInfinity
| NaN.

(** [2 ** 53]: every integer up to it, in absolute value, is a double. *)
Definition exact_limit : Z := 9007199254740992.

(** The double nearest to the integer [z]. From [2 ** 53] on a double has 53
    significant bits: [z] is cut to them and the rest [r] decides the
    rounding; a result from [2 ** 1024] on is an infinity. *)
Definition round_int (z : Z) : number :=
  let a := Z.abs z in
  if a <=? exact_limit then Finite z
  else
    let unit_ := 2 ^ (Z.log2 a - 52) in
    let m := a / unit_ in
    let r := a mod unit_ in
    let m' := if 2 * r <? unit_ then m
              else if unit_ <? 2 * r then m + 1
              else if Z.even m then m else m + 1 in
    if 2 ^ 1024 <=? m' * unit_
    then (if 0 <? z then PosInfinity else NegInfinity)
    else Finite (Z.sgn z * (m' * unit_)).

(** [-x] *)
Definition neg (x : number) : number :=
  match x with
  | Finite z => Finite (- z)
  | PosInfinity => NegInfinity
  | NegInfinity => PosInfinity
  | NaN => NaN
  end.

(** [x + y] *)
Definition add (x y : number) : number :=
  match x, y with
  | Finite a, Finite b => round_int (a + b)
  | NaN, _ | _, NaN => NaN
  | PosInfinity, NegInfinity | NegInfinity, PosInfinity => NaN
  | PosInfinity, _ | _, PosInfinity => PosInfinity
  | NegInfinity, _ | _, NegInfinity => NegInfinity
  end.

(** [x - y] *)
Definition sub (x y : number) : number := add x (neg y).

(** [x * y] *)
Definition mul (x y : number) : number :=
  match x, y with
  | Finite a, Finite b => round_int (a * b)
  | NaN, _ | _, NaN => NaN
  | Finite a, PosInfinity | PosInfinity, Finite a =>
      if a =? 0 then NaN else if 0 <? a then PosInfinity else NegInfinity
  | Finite a, NegInfinity | NegInfinity, Finite a =>
      if a =? 0 then NaN else if 0 <? a then NegInfinity else PosInfinity
  | PosInfinity, PosInfinity | NegInfinity, NegInfinity => PosInfinity
  | PosInfinity, NegInfinity | NegInfinity, PosInfinity => NegInfinity
  end.

(** [x > 0] *)
Definition positive (x : number) : bool :=
  match x with
  | Finite z => 0 <? z
  | PosInfinity => true
  | _ => false
  end.

(** [x % d] for a divisor [d] that is a positive integer: the remainder is
    exact and takes the sign of the dividend; of an infinity it is [NaN]. *)
Definition rem (x : number) (d : Z) : number :=
  match x with
  | Finite z => Finite (Z.rem z d)
  | _ => NaN
  end.

(** The integer nearest to [n / d], ties to the even one ([0 <= n], [0 < d]). *)
Definition nearest_even (n d : Z) : Z :=
  let q := n / d in
  let r := n mod d in
  if 2 * r <? d then q
  else if d <? 2 * r then q + 1
  else if Z.even q then q else q + 1.

(** [Math.floor(z / d)] for an integer [z] and a positive integer [d]: the
    quotient is rounded to 53 significant bits, [m / 2 ** k], before the
    floor is taken. *)
Definition floor_quotient (z d : Z) : Z :=
  if z =? 0 then 0
  else
    let p := Z.abs z in
    let k0 := 52 - (Z.log2 p - Z.log2 d) in
    let up k := 2 ^ Z.max k 0 in
    let down k := 2 ^ Z.max (- k) 0 in
    let k := if 2 ^ 52 * (d * down k0) <=? p * up k0 then k0 else k0 + 1 in
    let m := nearest_even (p * up k) (d * down k) in
    (Z.sgn z * (m * down k)) / up k.

(** [Math.floor(x / d)] for a positive integer [d]. *)
Definition floor_div (x : number) (d : Z) : number :=
  match x with
  | Finite z => Finite (floor_quotient z d)
  | other => other
  end.

(** The digits of [String(x)] for a double [x] from [10 ** 21] on: the
    shortest decimal [s * 10 ** (n - k)], [s] of [k] digits, that rounds to
    [x]; [digits] is the number of decimal digits of [x]. *)
Definition scientific_at (x digits k : Z) : option (Z * Z) :=
  let scale := 10 ^ (digits - k) in
  let low := x / scale in
  let ok s := match round_int (s * scale) with
              | Finite y => y =? x
              | _ => false
              end in
  let pick s := if s =? 10 ^ k then (1, digits + 1) else (s, digits) in
  match ok low, ok (low + 1) with
  | true, true =>
      if x - low * scale <? (low + 1) * scale - x then Some (pick low)
      else if (low + 1) * scale - x <? x - low * scale then Some (pick (low + 1))
      else if Z.even low then Some (pick low) else Some (pick (low + 1))
  | true, false => Some (pick low)
  | false, true => Some (pick (low + 1))
  | false, false => None
  end.

Fixpoint scientific_from (x digits : Z) (tries : nat) (k : Z) : Z * Z :=
  match tries with
  | O => (x, digits)
  | S tries' =>
      match scientific_at x digits k with
      | Some found => found
      | None => scientific_from x digits tries' (k + 1)
      end
  end.

(** The decimal digits [s] and the exponent [n] of a double [x] above
    [2 ** 53], and the string made of them: the digits and [n - k] zeros
    when [n] is at most 21, the exponent form beyond. *)
Fixpoint zeros (count : nat) : string :=
  match count with
  | O => ""
  | S count' => String "0" (zeros count')
  end.

Definition shortest (x : Z) : string :=
  let digits := Z.of_nat (String.length (pretty x)) in
  let (s, n) := scientific_from x digits 21 1 in
  let k := Z.of_nat (String.length (pretty s)) in
  if n <=? 21 then pretty s +:+ zeros (Z.to_nat (n - k))
  else
    match pretty s with
    | String first "" => String first "" +:+ "e+" +:+ pretty (n - 1)
    | String first more =>
        String first ("." +:+ more) +:+ "e+" +:+ pretty (n - 1)
    | other => other
    end.

(** [String(x)], as in a template literal.  Up to [2 ** 53] the shortest
    decimal that reads back as [x] is the numeral of [x] itself. *)
Definition toString (x : number) : string :=
  match x with
  | Finite z =>
      if Z.abs z <=? exact_limit then pretty z
      else if 0 <? z then shortest z else "-" +:+ shortest (- z)
  | PosInfinity => "Infinity"
  | NegInfinity => "-Infinity"
  | NaN => "NaN"
  end.

(** [String.fromCharCode(x)]: the code unit is [x] modulo [2 ** 16], and 0
    for a number that is not finite.  The strings of the model hold the code
    units below 256; the sources pass [65 + mod] only. *)
Definition fromCharCode (x : number) : string :=
  let code := match x with
              | Finite z => z mod 65536
              | _ => 0
              end in
  String (ascii_of_N (Z.to_N code)) EmptyString.

(** [parseInt(s)] on a string that starts with a digit: the double nearest
    to the value of its leading digits in base ten. *)
Fixpoint parseInt_loop (s : string) (acc : Z) : Z :=
  match s with
  | EmptyString => acc
  | String c rest =>
      if is_digit c then parseInt_loop rest (acc * 10 + (charCode c - 48))
      else acc
  end.

Definition parseInt (s : string) : number := round_int (parseInt_loop s 0).

End Js.

(** ** Coordinate algebra (taskpane.ts) *)

Module Coord.

(** [columnToNumber]: the loop body [num = num * 26 + (col.charCodeAt(i) - 64)]
    run over the characters of [col] from left to right. *)
Fixpoint columnToNumber_loop (col : string) (num : Js.number) : Js.number :=
  match col with
  | EmptyString => num
  | String c rest =>
      columnToNumber_loop rest
        (Js.add (Js.mul num (Js.Finite 26))
                (Js.sub (Js.Finite (Js.charCode c)) (Js.Finite 64)))
  end.

Definition columnToNumber (col : string) : Js.number :=
  columnToNumber_loop col (Js.Finite 0).

(** A bound on the iterations of [while (num > 0)] on a finite [num]: every
    iteration divides [num] by 26, and a double is below [2 ** 1024], so
    that 220 iterations bring it to zero (lemma
    [getColumnLetter_loop_finite]). *)
Definition iterations : nat := 1100.

(** [getColumnLetter]: the loop [while (num > 0)] with its two variables.
    On [Infinity] the condition holds for ever and the loop never exits. *)
Fixpoint getColumnLetter_loop (steps : nat) (num : Js.number) (letter : string)
  : Js.Completion string :=
  match steps with
  | O => Js.Running
  | S steps' =>
      if Js.positive num then
        let mod_ := Js.rem (Js.sub num (Js.Finite 1)) 26 in
        getColumnLetter_loop steps'
          (Js.floor_div (Js.sub num (Js.Finite 1)) 26)
          (Js.fromCharCode (Js.add (Js.Finite 65) mod_) +:+ letter)
      else Js.Return letter
  end.

Definition getColumnLetter (num : Js.number) : Js.Completion string :=
  getColumnLetter_loop iterations num "".

(** The start-cell decomposition of [extractSelectionData]:
    [startCell.match(/[A-Z]+/)?.[0] || 'A'] and
    [parseInt(startCell.match(/\d+/)?.[0] || '1')]. *)
Definition startCol (startCell : string) : string :=
  Js.or_else (Js.match_run Js.is_upper startCell) "A".

Definition startRow (startCell : string) : Js.number :=
  Js.parseInt (Js.or_else (Js.match_run Js.is_digit startCell) "1").

(** Both declarations together, as a step of [extractSelectionData]: the
    two expressions have no [throw] in them. *)
Definition parseStartCell (startCell : string)
  : Js.Completion (string * Js.number) :=
  Js.Return (startCol startCell, startRow startCell).

(** Lines 86 to 88 for the cell at offset ([row], [col]):
    [getColumnLetter(columnToNumber(startCol) + col)], [startRow + row] and
    [`${colLetter}${rowNum}`]. *)
Definition cellRef (startCell : string) (row col : Js.number)
  : Js.Completion string :=
  match getColumnLetter (Js.add (columnToNumber (startCol startCell)) col) with
  | Js.Return colLetter =>
      let rowNum := Js.add (startRow startCell) row in
      Js.Return (colLetter +:+ Js.toString rowNum)
  | Js.Throw thrown => Js.Throw thrown
  | Js.Running => Js.Running
  end.

End Coord.

(** ** The host: Office.js request contexts *)

Module Office.
Export Js (Completion, Return, Throw, Running).

(** A cell value: [string | number | boolean | null].  Numbers are only
    carried from a capture to a paste, never computed with. *)
Inductive CellValue : Type :=
| CellString (s : string)
| CellNumber (n : Z)
| CellBoolean (b : bool)
| CellNull.

(** Proxy objects.  A worksheet proxy is obtained from
    [worksheets.getActiveWorksheet()], [worksheets.getItem(name)] or
    [worksheets.add(name)]; a range proxy from
    [workbook.getSelectedRange()] or [sheet.getRange(address)]. *)
Inductive Worksheet : Type :=
| ActiveWorksheet
| ItemWorksheet (name : string)
| AddedWorksheet (name : option string).

Inductive Range : Type :=
| SelectedRange
| RangeOf (sheet : Worksheet) (address : string).

(** What the sources queue on a request context between two
    [context.sync()] calls. *)
Inductive Command : Type :=
| LoadRange (range : Range) (properties : list string)
| LoadSheet (sheet : Worksheet) (properties : list string)
| LoadSheets (properties : list string)
| AddSheet (name : option string)
| SetPosition (sheet : Worksheet) (position : Z)
| SetValues (range : Range) (values : list (list CellValue))
| SetFormulas (range : Range) (formulas : list (list string))
| Activate (sheet : Worksheet).

(** The host collaborator.  [W] is the state of the workbook as the host
    keeps it; [host_sync] runs one batch of queued commands and either
    succeeds or raises; the remaining fields read the properties that a
    batch has loaded. *)
Record Host (W : Type) : Type := {
  host_sync : list Command -> W -> option Js.Thrown * W;
  range_address : W -> Range -> string;
  range_values : W -> Range -> list (list CellValue);
  range_formulas : W -> Range -> list (list string);
  range_rowCount : W -> Range -> Z;
  range_columnCount : W -> Range -> Z;
  sheet_name : W -> Worksheet -> string;
  sheet_position : W -> Worksheet -> Z;
  sheets_names : W -> list string
}.
Arguments host_sync {W}.
Arguments range_address {W}.
Arguments range_values {W}.
Arguments range_formulas {W}.
Arguments range_rowCount {W}.
Arguments range_columnCount {W}.
Arguments sheet_name {W}.
Arguments sheet_position {W}.
Arguments sheets_names {W}.

(** [Excel.RequestContext]: the workbook behind it, the commands queued
    since the last [sync], and (for the statements below) the batches
    handed to the host so far, oldest first. *)
Record RequestContext (W : Type) : Type := {
  workbook : W;
  pending : list Command;
  batches : list (list Command)
}.
Arguments workbook {W}.
Arguments pending {W}.
Arguments batches {W}.

Definition Async (W A : Type) : Type :=
  RequestContext W -> Completion A * RequestContext W.

(** Sequencing: [x ← m; k] awaits [m] and goes on with [k] when [m]
    returns; a throw (or a spent step bound) ends the sequence. *)
#[global] Instance Async_ret {W} : MRet (Async W) :=
  fun A (a : A) ctx => (Return a, ctx).

#[global] Instance Async_bind {W} : MBind (Async W) :=
  fun A B (k : A -> Async W B) (m : Async W A) ctx =>
    match m ctx with
    | (Return a, ctx') => k a ctx'
    | (Throw error, ctx') => (Throw error, ctx')
    | (Running, ctx') => (Running, ctx')
    end.

(** A loop that has not left its body when the step bound is spent. *)
Definition still_running {W A} : Async W A := fun ctx => (Running, ctx).

(** [try { body } catch (error) { handler }] *)
Definition try_catch {W A} (body : Async W A) (handler : Js.Thrown -> Async W A)
  : Async W A :=
  fun ctx =>
    match body ctx with
    | (Throw error, ctx') => handler error ctx'
    | done => done
    end.

(** Queue one command on the request context. *)
Definition queue {W} (c : Command) : Async W unit :=
  fun ctx =>
    (Return tt,
     {| workbook := workbook ctx;
        pending := pending ctx ++ [c];
        batches := batches ctx |}).

(** Read a loaded property. *)
Definition loaded {W A} (read : W -> A) : Async W A :=
  fun ctx => (Return (read (workbook ctx)), ctx).

(** [await context.sync()] *)
Definition sync {W} (host : Host W) : Async W unit :=
  fun ctx =>
    let (raised, w) := host_sync host (pending ctx) (workbook ctx) in
    let ctx' := {| workbook := w;
                   pending := [];
                   batches := batches ctx ++ [pending ctx] |} in
    match raised with
    | Some error => (Throw error, ctx')
    | None => (Return tt, ctx')
    end.

(** [Excel.run(batch)]: the batch runs on a request context of its own. *)
Definition run {W A} (batch : Async W A) : Async W A :=
  fun ctx =>
    batch {| workbook := workbook ctx; pending := []; batches := batches ctx |}.

End Office.

(** ** The automation library (src/lib) *)

Module Lib.
Import Office.

(** *** types.ts *)

Record CapturedRange : Type := {
  address : string;
  sourceSheet : string;
  values : list (list CellValue);
  formulas : list (list string);
  rowCount : Z;
  columnCount : Z
}.

Inductive SheetPosition : Type := before | after | at_end.

Record CreateSheetOptions : Type := {
  name : option string;
  position : option SheetPosition
}.

Record AutomationResult (T : Type) : Type := {
  success : bool;
  data : option T;
  error : option string
}.
Arguments success {T}.
Arguments data {T}.
Arguments error {T}.

(** *** automations.ts: result and option records *)

Record CopyToNewSheetResult : Type := {
  captured : CapturedRange;
  newSheetName : string;
  pastedAddress : string
}.

Record CopyToNewSheetOptions : Type := {
  sheetName : option string;
  valuesOnly : option bool;
  activateNewSheet : option bool
}.

Record DuplicateResult : Type := {
  sourceAddress : string;
  targetAddress : string
}.

(** *** sheet.ts: the pure part of generateUniqueSheetName *)

(** [new Set(sheets.items.map(s => s.name.toLowerCase()))] *)
Definition existingNames (names : list string) : gset string :=
  list_to_set (Js.toLowerCase <$> names).

(** [existingNames.has(x)] *)
Definition has (set : gset string) (x : string) : bool :=
  bool_decide (x ∈ set).

(** [`${baseName} (${counter})`] *)
Definition numbered (baseName : string) (counter : Z) : string :=
  baseName +:+ " (" +:+ pretty counter +:+ ")".

(** [while (existingNames.has(`${baseName} (${counter})`.toLowerCase()))
    counter++], run for at most [steps] tests of the loop condition;
    [None] when the loop is still running after that many. *)
Fixpoint countUp (set : gset string) (baseName : string)
                 (steps : nat) (counter : Z) : option Z :=
  match steps with
  | O => None
  | S steps' =>
      if has set (Js.toLowerCase (numbered baseName counter))
      then countUp set baseName steps' (counter + 1)
      else Some counter
  end.

(** Lines 70 to 83 of sheet.ts, on the sheet names that the host returned. *)
Definition uniqueSheetName (steps : nat) (names : list string)
                           (baseName : string) : option string :=
  let set := existingNames names in
  if negb (has set (Js.toLowerCase baseName)) then Some baseName
  else
    match countUp set baseName steps 2 with
    | Some counter => Some (numbered baseName counter)
    | None => None
    end.

(** One more test than there are existing names is always enough
    (theorem [countUp_terminates]). *)
Definition enough_steps (names : list string) : nat :=
  S (size (existingNames names)).

Section WithHost.
Context {W : Type} (host : Host W).

(** *** range.ts *)

(** [range.address.includes('!') ? range.address.split('!')[1]
    : range.address] *)
Definition addressOnly (range_address : string) : string :=
  if Js.includes "!" range_address
  then default "" (Js.split "!" range_address !! 1%nat)
  else range_address.

(** The object literal that both capture functions return, read from the
    properties loaded for [range] and [sheet]. *)
Definition captured_from (range : Range) (sheet : Worksheet) (w : W)
  : CapturedRange :=
  {| address := addressOnly (range_address host w range);
     sourceSheet := sheet_name host w sheet;
     values := range_values host w range;
     formulas := range_formulas host w range;
     rowCount := range_rowCount host w range;
     columnCount := range_columnCount host w range |}.

Definition captureSelection : Async W CapturedRange :=
  let range := SelectedRange in
  let sheet := ActiveWorksheet in
  queue (LoadRange range
           ["address"; "values"; "formulas"; "rowCount"; "columnCount"]);;
  queue (LoadSheet sheet ["name"]);;
  sync host;;
  loaded (captured_from range sheet).

Definition captureRange (address_ : string) (sheetName_ : option string)
  : Async W CapturedRange :=
  let sheet :=
    match sheetName_ with
    | Some (String c rest) => ItemWorksheet (String c rest)
    | _ => ActiveWorksheet
    end in
  let range := RangeOf sheet address_ in
  queue (LoadRange range
           ["address"; "values"; "formulas"; "rowCount"; "columnCount"]);;
  queue (LoadSheet sheet ["name"]);;
  sync host;;
  loaded (captured_from range sheet).

(** The one write of [pasteRange]: [range.values = captured.values] or
    [range.formulas = captured.formulas]. *)
Definition pasteCommand (captured_ : CapturedRange) (range : Range)
                        (valuesOnly_ : bool) : Command :=
  if valuesOnly_ then SetValues range (values captured_)
  else SetFormulas range (formulas captured_).

(** [targetAddress || captured.address] *)
Definition pasteAddress (captured_ : CapturedRange)
                        (targetAddress_ : option string) : string :=
  Js.or_else targetAddress_ (address captured_).

Definition pasteRange (captured_ : CapturedRange) (targetSheet : Worksheet)
                      (targetAddress_ : option string)
                      (valuesOnly_ : option bool) : Async W unit :=
  let valuesOnly_ := default false valuesOnly_ in
  let address_ := pasteAddress captured_ targetAddress_ in
  let range := RangeOf targetSheet address_ in
  queue (pasteCommand captured_ range valuesOnly_);;
  sync host.

(** *** sheet.ts *)

Definition createSheet (options : CreateSheetOptions) : Async W Worksheet :=
  let activeSheet := ActiveWorksheet in
  queue (LoadSheet activeSheet ["position"]);;
  sync host;;
  let newSheet := AddedWorksheet (name options) in
  queue (AddSheet (name options));;
  activePosition ← loaded (fun w => sheet_position host w activeSheet);
  match position options with
  | Some before => queue (SetPosition newSheet activePosition)
  | Some at_end => mret tt
  | _ => queue (SetPosition newSheet (activePosition + 1))
  end;;
  sync host;;
  mret newSheet.

Definition generateUniqueSheetName (baseName : string) : Async W string :=
  queue (LoadSheets ["items/name"]);;
  sync host;;
  names ← loaded (sheets_names host);
  match uniqueSheetName (enough_steps names) names baseName with
  | Some unique => mret unique
  | None => still_running
  end.

Definition getActiveSheet : Async W Worksheet :=
  let sheet := ActiveWorksheet in
  queue (LoadSheet sheet ["name"; "position"]);;
  sync host;;
  mret sheet.

Definition activateSheet (sheet : Worksheet) : Async W unit :=
  queue (Activate sheet);;
  sync host.

(** *** automations.ts *)

Definition failure {T} (message : string) : AutomationResult T :=
  {| success := false; data := None; error := Some message |}.

Definition succeeded {T} (d : T) : AutomationResult T :=
  {| success := true; data := Some d; error := None |}.

(** The batch that [copySelectionToNewSheet] hands to [Excel.run]. *)
Definition copySelectionToNewSheet_batch (options : CopyToNewSheetOptions)
  : Async W (AutomationResult CopyToNewSheetResult) :=
  captured_ ← captureSelection;
  if (rowCount captured_ =? 0)%Z || (columnCount captured_ =? 0)%Z
  then mret (failure "No cells selected")
  else
    let baseName :=
      Js.or_else (sheetName options)
                 ("Copy of " +:+ sourceSheet captured_) in
    uniqueName ← generateUniqueSheetName baseName;
    newSheet ← createSheet {| name := Some uniqueName; position := None |};
    pasteRange captured_ newSheet (Some (address captured_))
               (Some (default false (valuesOnly options)));;
    (if bool_decide (activateNewSheet options ≠ Some false)
     then queue (Activate newSheet);; sync host
     else mret tt);;
    mret (succeeded {| captured := captured_;
                       newSheetName := uniqueName;
                       pastedAddress := address captured_ |}).

Definition copySelectionToNewSheet (options : CopyToNewSheetOptions)
  : Async W (AutomationResult CopyToNewSheetResult) :=
  try_catch (run (copySelectionToNewSheet_batch options))
            (fun error_ => mret (failure (Js.error_text error_))).

(** The batch that [duplicateSelection] hands to [Excel.run]. *)
Definition duplicateSelection_batch (targetAddress_ : string)
                                    (valuesOnly_ : option bool)
  : Async W (AutomationResult DuplicateResult) :=
  captured_ ← captureSelection;
  let sheet := ActiveWorksheet in
  pasteRange captured_ sheet (Some targetAddress_) valuesOnly_;;
  mret (succeeded {| sourceAddress := address captured_;
                     targetAddress := targetAddress_ |}).

Definition duplicateSelection (targetAddress_ : string)
                              (valuesOnly_ : option bool)
  : Async W (AutomationResult DuplicateResult) :=
  try_catch (run (duplicateSelection_batch targetAddress_ valuesOnly_))
            (fun error_ => mret (failure (Js.error_text error_))).

End WithHost.

(** A request context as [Excel.run] finds it when an automation starts. *)
Definition fresh {W} (w : W) : RequestContext W :=
  {| workbook := w; pending := []; batches := [] |}.

End Lib.

(** ** Two small hosts to run the library on *)

Module Hosts.
Import Office Lib.

(** A host that accepts every batch and always reports the same selection,
    sheet names and active position. *)
Definition quiet (selection : CapturedRange) (names : list string)
                 (activePosition : Z) : Host unit :=
  {| host_sync := fun _ w => (None, w);
     range_address := fun _ _ =>
       sourceSheet selection +:+ "!" +:+ address selection;
     range_values := fun _ _ => values selection;
     range_formulas := fun _ _ => formulas selection;
     range_rowCount := fun _ _ => rowCount selection;
     range_columnCount := fun _ _ => columnCount selection;
     sheet_name := fun _ _ => sourceSheet selection;
     sheet_position := fun _ _ => activePosition;
     sheets_names := fun _ => names |}.

(** The same host, except that the batch number [failAt] (counted from 0)
    raises [thrown]; its state is the number of batches seen. *)
Definition failing (failAt : nat) (thrown : Js.Thrown)
                   (selection : CapturedRange) (names : list string)
                   (activePosition : Z) : Host nat :=
  {| host_sync := fun _ n =>
       (if Nat.eqb n failAt then Some thrown else None, S n);
     range_address := fun _ _ =>
       sourceSheet selection +:+ "!" +:+ address selection;
     range_values := fun _ _ => values selection;
     range_formulas := fun _ _ => formulas selection;
     range_rowCount := fun _ _ => rowCount selection;
     range_columnCount := fun _ _ => columnCount selection;
     sheet_name := fun _ _ => sourceSheet selection;
     sheet_position := fun _ _ => activePosition;
     sheets_names := fun _ => names |}.

(** The selection B2:C3 of sheet Data, with one formula in it. *)
Definition data_B2_C3 : CapturedRange :=
  {| address := "B2:C3";
     sourceSheet := "Data";
     values := [[CellNumber 10; CellString "x"];
                [CellNumber 20; CellBoolean true]];
     formulas := [["10"; "x"]; ["=B2*2"; "TRUE"]];
     rowCount := 2;
     columnCount := 2 |}.

(** A selection without rows. *)
Definition nothing_selected : CapturedRange :=
  {| address := "A1";
     sourceSheet := "Data";
     values := [];
     formulas := [];
     rowCount := 0;
     columnCount := 0 |}.

(** The capture of the testable properties: one formula cell and one
    literal cell. *)
Definition formula_and_literal : CapturedRange :=
  {| address := "A1:B1";
     sourceSheet := "Sheet1";
     values := [[CellNumber 20; CellString "x"]];
     formulas := [["=A1*2"; ""]];
     rowCount := 1;
     columnCount := 2 |}.

End Hosts.

(** ** The task pane (taskpane.ts): the cells of a selection *)

Module Taskpane.
Import Office.

(** [CellData]: [value] is what [range.values[row][col]] evaluates to
    ([None] for [undefined]), [formula] is a string or [null] ([None]). *)
Record CellData : Type := {
  ref : string;
  value : option CellValue;
  formula : option string
}.


(** What reading a property of [undefined] throws; the automations of the
    task pane never look at its message. *)
Definition TypeError : Js.Thrown :=
  Js.ErrorObject "Cannot read properties of undefined".

(** [grid[row][col]] for loop counters [row] and [col]: a missing row makes
    the second subscript throw, a missing cell in a row that is there
    evaluates to [undefined]. *)
Definition index2 {A} (grid : list (list A)) (row col : Z)
  : Completion (option A) :=
  match grid !! Z.to_nat row with
  | None => Throw TypeError
  | Some cells_ => Return (cells_ !! Z.to_nat col)
  end.

(** [typeof formula === 'string' && formula.startsWith('=')]; the entries of
    [range.formulas] are strings, numbers or booleans. *)
Definition hasFormula (formula_ : option CellValue) : bool :=
  match formula_ with
  | Some (CellString (String "=" _)) => true
  | _ => false
  end.

(** [includeFormulas && hasFormula ? formula : null] *)
Definition formulaField (includeFormulas : bool) (formula_ : option CellValue)
  : option string :=
  if includeFormulas && hasFormula formula_
  then match formula_ with Some (CellString s) => Some s | _ => None end
  else None.

(** The passes of [for (let i = 0; i < n; i++) body] over the values
    [indices] that [i] takes, with the variables that the body updates as
    [state]; a throw in the body leaves the loop. *)
Fixpoint for_each {S} (indices : list Z) (body : Z -> S -> Completion S)
                  (state : S) : Completion S :=
  match indices with
  | [] => Return state
  | i :: later =>
      match body i state with
      | Return state' => for_each later body state'
      | stopped => stopped
      end
  end.

(** The loop with its bound: the counter is a number, so that from
    [2 ** 53] on [i++] leaves it as it is.  A loop to a [count] above
    [2 ** 53] runs its body on 0 to [2 ** 53] and then on [2 ** 53] for
    ever: it never exits unless the body throws.  (The bodies below return
    or throw at an index whatever the state is.) *)
Definition for_count {S} (count : Z) (body : Z -> S -> Completion S)
                     (state : S) : Completion S :=
  if (count <=? Js.exact_limit)%Z then for_each (seqZ 0 count) body state
  else
    match for_each (seqZ 0 (Js.exact_limit + 1)) body state with
    | Return _ => Running
    | stopped => stopped
    end.

(** The body of the inner loop of [extractSelectionData] (lines 86 to 100):
    the reference is composed first, the two grids are read after it. *)
Definition pushCell (includeFormulas : bool) (startCell : string)
                    (values : list (list CellValue))
                    (formulas : list (list CellValue))
                    (row col : Z) (cells_ : list CellData)
  : Completion (list CellData) :=
  match Coord.cellRef startCell (Js.Finite row) (Js.Finite col) with
  | Return cellRef =>
      match index2 values row col with
      | Return value_ =>
          match index2 formulas row col with
          | Return formula_ =>
              Return (cells_ ++ [{| ref := cellRef;
                                    value := value_;
                                    formula := formulaField includeFormulas formula_ |}])
          | Throw thrown => Throw thrown
          | Running => Running
          end
      | Throw thrown => Throw thrown
      | Running => Running
      end
  | Throw thrown => Throw thrown
  | Running => Running
  end.

(** [addressPart.split(':')[0]] *)
Definition startCellOf (addressPart : string) : string :=
  default "" (Js.split ":" addressPart !! 0%nat).

(** Lines 70 to 102 of [extractSelectionData]: the cells of the loaded
    range, row by row. *)
Definition selectionCells (includeFormulas : bool) (fullAddress : string)
                          (rowCount columnCount : Z)
                          (values : list (list CellValue))
                          (formulas : list (list CellValue))
  : Completion (list CellData) :=
  let addressPart := Lib.addressOnly fullAddress in
  let startCell := startCellOf addressPart in
  for_count rowCount
    (fun row =>
       for_count columnCount
         (pushCell includeFormulas startCell values formulas row))
    [].


End Taskpane.

(** ** Vocabulary of the statements *)

Module Spec.
Import Office Lib.

(** The claim as the specification words it: a reference with no letter
    run, with no digit run, or with anything besides the two runs makes the
    parse throw. *)
Definition well_formed (ref : string) : Prop :=
  exists letters digits,
    ref = letters +:+ digits
    /\ letters <> "" /\ Js.all_chars Js.is_upper letters = true
    /\ digits <> "" /\ Js.all_chars Js.is_digit digits = true.


(** A name is in use when some existing sheet has it, upper and lower case
    not told apart. *)
Definition in_use (names : list string) (candidate : string) : Prop :=
  exists n, n ∈ names /\ Js.toLowerCase n = Js.toLowerCase candidate.

(** The commands that [createSheet] queues after [sheets.add]. *)
Definition placement (options : CreateSheetOptions) (activePosition : Z)
  : list Command :=
  match position options with
  | Some before =>
      [SetPosition (AddedWorksheet (name options)) activePosition]
  | Some at_end => []
  | Some after | None =>
      [SetPosition (AddedWorksheet (name options)) (activePosition + 1)]
  end.

(** The batches of a run of [copySelectionToNewSheet] in which every step
    goes through, for the capture [cap], the sheet name [newName] and the
    active sheet's position [active]. *)
Definition copy_batches (cap : CapturedRange) (newName : string) (active : Z)
                        (valuesOnly_ : bool) (activate : bool)
  : list (list Command) :=
  let newSheet := AddedWorksheet (Some newName) in
  [ [LoadRange SelectedRange
       ["address"; "values"; "formulas"; "rowCount"; "columnCount"];
     LoadSheet ActiveWorksheet ["name"]];
    [LoadSheets ["items/name"]];
    [LoadSheet ActiveWorksheet ["position"]];
    [AddSheet (Some newName); SetPosition newSheet (active + 1)];
    [if valuesOnly_
     then SetValues (RangeOf newSheet (address cap)) (values cap)
     else SetFormulas (RangeOf newSheet (address cap)) (formulas cap)] ]
  ++ (if activate then [[Activate newSheet]] else []).


(** The loads that [captureSelection] queues. *)
Definition capture_loads : list Command :=
  [LoadRange SelectedRange
     ["address"; "values"; "formulas"; "rowCount"; "columnCount"];
   LoadSheet ActiveWorksheet ["name"]].

(** A capture with no rows or no columns. *)
Definition degenerate (cap : CapturedRange) : Prop :=
  rowCount cap = 0 \/ columnCount cap = 0.

(** The claim as the specification words it, for both automations: after a
    capture without rows or columns, [copySelectionToNewSheet] returns the
    failure "no cells selected" and has added no sheet, and
    [duplicateSelection] returns a failure. *)
Definition degenerate_selection_fails : Prop :=
  forall W (host : Host W) (w w1 : W),
    host_sync host capture_loads w = (None, w1) ->
    degenerate (captured_from host SelectedRange ActiveWorksheet w1) ->
    (forall options, exists ctx',
        copySelectionToNewSheet host options (fresh w)
        = (Return (failure "no cells selected"), ctx')
        /\ forall batch name_, batch ∈ batches ctx' -> AddSheet name_ ∉ batch)
    /\ (forall target valuesOnly_, exists message ctx',
          duplicateSelection host target valuesOnly_ (fresh w)
          = (Return (failure message), ctx')).

End Spec.

(** ** Vocabulary of the further statements *)

Module Statements.
Import Office Lib Taskpane.

(** The offsets of the cells of a selection, row by row. *)
Definition offsets (rowCount columnCount : Z) : list (Z * Z) :=
  seqZ 0 rowCount ≫= fun row =>
    seqZ 0 columnCount ≫= fun col => [(row, col)].

(** The columns of a selection are exact when the number of the column
    after its last one is at most [2 ** 53], and so are its rows. *)
Definition columns_exact (startCell : string) (columnCount : Z) : Prop :=
  exists column,
    Coord.columnToNumber (Coord.startCol startCell) = Js.Finite column
    /\ (column + columnCount <= Js.exact_limit)%Z.

Definition rows_exact (startCell : string) (rowCount : Z) : Prop :=
  exists first,
    Coord.startRow startCell = Js.Finite first
    /\ (first + rowCount <= Js.exact_limit)%Z.

(** What reading capitals gives: a positive number, or [Infinity]. *)
Definition positive_or_Infinity (x : Js.number) : Prop :=
  x = Js.PosInfinity \/ exists a, x = Js.Finite a /\ (0 < a)%Z.

(** The reference of a cell is the one composed at its offset. *)
Definition composed_at (startCell : string) (cell : CellData)
                       (offset : Z * Z) : Prop :=
  Coord.cellRef startCell (Js.Finite offset.1) (Js.Finite offset.2)
  = Js.Return (ref cell).

(** The formula field of a cell: [null], or a string that starts with [=]. *)
Definition formula_or_null (includeFormulas : bool) (cell : CellData) : Prop :=
  match formula cell with
  | None => True
  | Some text => includeFormulas = true /\ exists rest, text = String "=" rest
  end.

(** The sheet that [captureRange] reads from. *)
Definition sheet_read (sheetName_ : option string) : Worksheet :=
  match sheetName_ with
  | None => ActiveWorksheet
  | Some name_ => if decide (name_ = "") then ActiveWorksheet
                  else ItemWorksheet name_
  end.

Definition range_loads (range : Range) (sheet : Worksheet) : list Command :=
  [LoadRange range ["address"; "values"; "formulas"; "rowCount"; "columnCount"];
   LoadSheet sheet ["name"]].

(** The single write of [duplicateSelection]. *)
Definition duplicate_write (cap : CapturedRange) (target : string)
                           (valuesOnly_ : option bool) : Command :=
  pasteCommand cap
    (RangeOf ActiveWorksheet (Js.or_else (Some target) (address cap)))
    (default false valuesOnly_).

End Statements.

(** * Properties *)

(** ** Strings *)

Module StringFacts.

Lemma append_cons (c : ascii) (s t : string) :
  String c s +:+ t = String c (s +:+ t).
Proof. reflexivity. Qed.

Lemma append_nil (t : string) : "" +:+ t = t.
Proof. reflexivity. Qed.

Lemma append_empty_r (s : string) : s +:+ "" = s.
Proof.
  induction s as [|c s IH]; [reflexivity|]. rewrite append_cons, IH. reflexivity.
Qed.

Lemma append_assoc (s t u : string) : (s +:+ t) +:+ u = s +:+ t +:+ u.
Proof.
  induction s as [|c s IH]; [reflexivity|]. rewrite !append_cons, IH. reflexivity.
Qed.

Lemma length_append (s t : string) :
  String.length (s +:+ t) = (String.length s + String.length t)%nat.
Proof.
  induction s as [|c s IH]; [reflexivity|].
  rewrite append_cons. cbn [String.length]. rewrite IH. reflexivity.
Qed.

(** Cancelling a common suffix. *)
Lemma append_inj_l (s t u : string) : s +:+ u = t +:+ u -> s = t.
Proof.
  revert t. induction s as [|c s IH]; intros [|d t] Heq.
  - reflexivity.
  - apply (f_equal String.length) in Heq.
    rewrite append_nil, append_cons in Heq. cbn [String.length] in Heq.
    rewrite length_append in Heq. lia.
  - apply (f_equal String.length) in Heq.
    rewrite append_nil, append_cons in Heq. cbn [String.length] in Heq.
    rewrite length_append in Heq. lia.
  - rewrite !append_cons in Heq. injection Heq as -> Heq.
    f_equal. apply IH. exact Heq.
Qed.

Lemma toLowerCase_append (s t : string) :
  Js.toLowerCase (s +:+ t) = Js.toLowerCase s +:+ Js.toLowerCase t.
Proof.
  induction s as [|c s IH]; [reflexivity|].
  rewrite append_cons. cbn [Js.toLowerCase]. rewrite IH. reflexivity.
Qed.

(** Decimal numerals have no capital in them. *)
Lemma toLowerCase_pretty_N_char (x : N) :
  Js.toLowerCase_char (pretty_N_char x) = pretty_N_char x.
Proof. unfold pretty_N_char. repeat case_match; reflexivity. Qed.

Lemma toLowerCase_pretty_N_go (x : N) (s : string) :
  Js.toLowerCase s = s ->
  Js.toLowerCase (pretty_N_go x s) = pretty_N_go x s.
Proof.
  revert s. induction (N.lt_wf_0 x) as [x _ IH]; intros s Hs.
  destruct (decide (0 < x)%N) as [Hx|Hx].
  - rewrite pretty_N_go_step by exact Hx. apply IH.
    + apply N.div_lt; lia.
    + cbn [Js.toLowerCase]. rewrite toLowerCase_pretty_N_char, Hs. reflexivity.
  - assert (x = 0%N) as -> by lia. rewrite pretty_N_go_0. exact Hs.
Qed.

Lemma toLowerCase_pretty_N (x : N) :
  Js.toLowerCase (pretty x) = pretty x.
Proof.
  unfold pretty, pretty_N. case_decide; [reflexivity|].
  apply toLowerCase_pretty_N_go. reflexivity.
Qed.

Lemma toLowerCase_pretty_Z (z : Z) :
  Js.toLowerCase (pretty z) = pretty z.
Proof.
  unfold pretty, pretty_Z. destruct z as [|p|p]; [reflexivity| |].
  - apply toLowerCase_pretty_N.
  - rewrite toLowerCase_append. f_equal. apply toLowerCase_pretty_N.
Qed.

End StringFacts.

(** ** Numbers *)

Module NumberFacts.
Import Js.
Local Open Scope Z_scope.

(** Up to [2 ** 53] the arithmetic is exact. *)
Lemma round_int_exact (z : Z) :
  Z.abs z <= exact_limit -> round_int z = Finite z.
Proof.
  intros Hz. unfold round_int.
  destruct (Z.leb_spec (Z.abs z) exact_limit); [reflexivity | lia].
Qed.

Lemma add_exact (a b : Z) :
  Z.abs (a + b) <= exact_limit -> add (Finite a) (Finite b) = Finite (a + b).
Proof. intros H. cbn [add]. apply round_int_exact, H. Qed.

Lemma sub_exact (a b : Z) :
  Z.abs (a - b) <= exact_limit -> sub (Finite a) (Finite b) = Finite (a - b).
Proof.
  intros H. unfold sub. cbn [neg add]. rewrite Z.add_opp_r.
  apply round_int_exact, H.
Qed.

Lemma mul_exact (a b : Z) :
  Z.abs (a * b) <= exact_limit -> mul (Finite a) (Finite b) = Finite (a * b).
Proof. intros H. cbn [mul]. apply round_int_exact, H. Qed.

(** Rounding keeps the sign: a positive integer rounds to a positive double
    or overflows to [Infinity]. *)
Lemma round_int_positive (z : Z) :
  0 < z ->
  (exists r, round_int z = Finite r /\ 0 < r) \/ round_int z = PosInfinity.
Proof.
  intros Hz. unfold round_int.
  destruct (Z.leb_spec (Z.abs z) exact_limit) as [Hsmall|Hbig].
  { left. exists z. split; [reflexivity | assumption]. }
  rewrite Z.abs_eq in * by lia.
  set (unit_ := 2 ^ (Z.log2 z - 52)).
  assert (52 <= Z.log2 z) as Hlog.
  { apply Z.log2_le_pow2; [lia|]. unfold exact_limit in Hbig. lia. }
  assert (0 < unit_) as Hunit by (apply Z.pow_pos_nonneg; lia).
  assert (1 <= z / unit_) as Hm.
  { apply Z.div_le_lower_bound; [lia|].
    pose proof (proj1 (Z.log2_spec z Hz)) as Hspec.
    assert (unit_ <= 2 ^ Z.log2 z)
      by (apply Z.pow_le_mono_r; lia).
    lia. }
  set (m' := if 2 * (z mod unit_) <? unit_ then z / unit_
             else if unit_ <? 2 * (z mod unit_) then z / unit_ + 1
             else if Z.even (z / unit_) then z / unit_ else z / unit_ + 1).
  assert (1 <= m') as Hm'.
  { unfold m'. repeat match goal with |- context [if ?b then _ else _] =>
                        destruct b end; lia. }
  destruct (Z.leb_spec (2 ^ 1024) (m' * unit_)).
  - right. destruct (Z.ltb_spec 0 z); [reflexivity | lia].
  - left. eexists. split; [reflexivity|].
    rewrite Z.sgn_pos by lia. nia.
Qed.

(** The nearest integer to [n / d] is within a half of it. *)
Lemma nearest_even_bounds (n d : Z) :
  0 < d ->
  2 * n - d <= 2 * d * nearest_even n d <= 2 * n + d.
Proof.
  intros Hd. unfold nearest_even.
  pose proof (Z.div_mod n d ltac:(lia)) as Hdiv.
  pose proof (Z.mod_pos_bound n d Hd) as Hmod.
  destruct (Z.ltb_spec (2 * (n mod d)) d).
  - nia.
  - destruct (Z.ltb_spec d (2 * (n mod d))).
    + nia.
    + destruct (Z.even (n / d)); nia.
Qed.

(** A quotient by 26 that is kept to four binary places or more has the
    floor of the exact quotient. *)
Lemma nearest_even_floor (p scale : Z) :
  0 <= p -> 16 <= scale ->
  nearest_even (p * scale) 26 / scale = p / 26.
Proof.
  intros Hp Hscale.
  pose proof (nearest_even_bounds (p * scale) 26 ltac:(lia)) as Hm.
  pose proof (Z.div_mod p 26 ltac:(lia)) as Hdiv.
  pose proof (Z.mod_pos_bound p 26 ltac:(lia)) as Hmod.
  set (m := nearest_even (p * scale) 26) in *.
  set (a := p / 26) in *. set (b := p mod 26) in *.
  assert (a * scale <= m) by nia.
  assert (m < (a + 1) * scale) by nia.
  symmetry. apply (Z.div_unique m scale a (m - a * scale)); lia.
Qed.

(** [Math.floor(p / 26)] is the integer quotient for [p] up to [2 ** 53]. *)
Lemma floor_quotient_exact (p : Z) :
  0 <= p <= exact_limit -> floor_quotient p 26 = p / 26.
Proof.
  intros Hp.
  destruct (Z.eq_dec p 0) as [->|Hp0]; [reflexivity|].
  destruct (Z.eq_dec p exact_limit) as [->|Hlim]; [vm_compute; reflexivity|].
  unfold floor_quotient.
  destruct (Z.eqb_spec p 0); [lia|].
  rewrite Z.abs_eq, Z.sgn_pos by lia.
  change (Z.log2 26) with 4.
  assert (Z.log2 p < 53) as Hlog.
  { apply Z.log2_lt_pow2; [lia|]. unfold exact_limit in *. lia. }
  pose proof (Z.log2_nonneg p) as Hlog0.
  set (k0 := 52 - (Z.log2 p - 4)).
  assert (4 <= k0) as Hk0 by (unfold k0; lia).
  assert (forall k, 4 <= k ->
            1 * (nearest_even (p * 2 ^ Z.max k 0) (26 * 2 ^ Z.max (- k) 0)
                 * 2 ^ Z.max (- k) 0) / 2 ^ Z.max k 0 = p / 26) as Hany.
  { intros k Hk.
    rewrite (Z.max_l k 0), (Z.max_r (- k) 0) by lia.
    change (2 ^ 0) with 1. rewrite !Z.mul_1_r, Z.mul_1_l.
    apply nearest_even_floor; [lia|].
    change 16 with (2 ^ 4). apply Z.pow_le_mono_r; lia. }
  match goal with |- context [if ?b then k0 else k0 + 1] => destruct b end;
    apply Hany; lia.
Qed.

Lemma floor_div_exact (p : Z) :
  0 <= p <= exact_limit -> floor_div (Finite p) 26 = Finite (p / 26).
Proof. intros Hp. cbn [floor_div]. f_equal. apply floor_quotient_exact, Hp. Qed.

End NumberFacts.

(** ** Coordinate algebra *)

Module CoordFacts.
Import Coord.
Local Open Scope Z_scope.

(** The letter that one pass of the loop of [getColumnLetter] puts in front. *)
Lemma fromCharCode_capital (r : Z) (rest : string) :
  0 <= r < 26 ->
  exists c, Js.fromCharCode (Js.add (Js.Finite 65) (Js.Finite r)) +:+ rest
            = String c rest
            /\ Js.charCode c = 65 + r /\ Js.is_upper c = true.
Proof.
  intros Hr. exists (ascii_of_N (Z.to_N (65 + r))).
  rewrite NumberFacts.add_exact by (unfold Js.exact_limit; lia).
  unfold Js.fromCharCode. rewrite Z.mod_small by lia.
  split; [reflexivity|].
  unfold Js.charCode, Js.is_upper. rewrite N_ascii_embedding by lia.
  split; [lia|]. apply andb_true_iff; split; apply N.leb_le; lia.
Qed.

(** One pass of the loop of [getColumnLetter] on a column number up to
    [2 ** 53]. *)
Lemma getColumnLetter_loop_pass (steps : nat) (n : Z) (letter : string) :
  1 <= n <= Js.exact_limit ->
  exists c,
    getColumnLetter_loop (S steps) (Js.Finite n) letter
    = getColumnLetter_loop steps (Js.Finite ((n - 1) / 26)) (String c letter)
    /\ Js.charCode c = 65 + (n - 1) mod 26 /\ Js.is_upper c = true.
Proof.
  intros Hn.
  pose proof (Z.mod_pos_bound (n - 1) 26 ltac:(lia)) as Hmod.
  destruct (fromCharCode_capital ((n - 1) mod 26) letter Hmod)
    as (c & Hc & Hcode & Hupper).
  exists c. split; [|split; assumption].
  cbn [getColumnLetter_loop Js.positive].
  destruct (Z.ltb_spec 0 n); [|lia].
  rewrite NumberFacts.sub_exact by lia.
  rewrite NumberFacts.floor_div_exact by lia.
  cbn [Js.rem]. rewrite Z.rem_mod_nonneg by lia.
  rewrite Hc. reflexivity.
Qed.

Lemma getColumnLetter_loop_done (steps : nat) (n : Z) (letter : string) :
  n <= 0 -> getColumnLetter_loop (S steps) (Js.Finite n) letter = Js.Return letter.
Proof.
  intros Hn. cbn [getColumnLetter_loop Js.positive].
  destruct (Z.ltb_spec 0 n); [lia | reflexivity].
Qed.

(** One pass of the loop of [columnToNumber] while the number stays within
    [2 ** 53]. *)
Lemma columnToNumber_loop_pass (c : ascii) (rest : string) (num : Z) :
  0 <= num -> 64 <= Js.charCode c ->
  num * 26 + (Js.charCode c - 64) <= Js.exact_limit ->
  columnToNumber_loop (String c rest) (Js.Finite num)
  = columnToNumber_loop rest (Js.Finite (num * 26 + (Js.charCode c - 64))).
Proof.
  intros Hnum Hc Hsum. cbn [columnToNumber_loop].
  assert (Js.charCode c < 256).
  { unfold Js.charCode. pose proof (N_ascii_bounded c). lia. }
  unfold Js.exact_limit in *.
  rewrite NumberFacts.mul_exact by (unfold Js.exact_limit; lia).
  rewrite NumberFacts.sub_exact by (unfold Js.exact_limit; lia).
  rewrite NumberFacts.add_exact by (unfold Js.exact_limit; lia).
  reflexivity.
Qed.

(** The loop of [getColumnLetter] returns on a column number up to
    [2 ** 53] once the step bound covers its base-26 digits, and reading
    back what it has produced from [num] and [letter] is the same as reading
    [letter] with [num] already accumulated. *)
Lemma columnToNumber_getColumnLetter_loop (steps : nat) :
  forall (n : Z) (letter : string),
    0 <= n <= Js.exact_limit -> n < 26 ^ Z.of_nat steps ->
    exists letters,
      getColumnLetter_loop (S steps) (Js.Finite n) letter = Js.Return letters
      /\ columnToNumber letters = columnToNumber_loop letter (Js.Finite n)
      /\ (Js.all_chars Js.is_upper letter = true ->
          Js.all_chars Js.is_upper letters = true)
      /\ (String.length letter <= String.length letters)%nat
      /\ (1 <= n -> (String.length letter < String.length letters)%nat).
Proof.
  induction steps as [|steps IH]; intros n letter Hn Hsteps.
  - assert (n = 0) as -> by (cbn in Hsteps; lia).
    exists letter. repeat split; [tauto | lia | lia].
  - destruct (Z.eq_dec n 0) as [->|Hn0].
    { exists letter. rewrite getColumnLetter_loop_done by lia.
      repeat split; [tauto | lia | lia]. }
    destruct (getColumnLetter_loop_pass (S steps) n letter ltac:(lia))
      as (c & -> & Hcode & Hupper).
    pose proof (Z.div_mod (n - 1) 26 ltac:(lia)) as Hdiv.
    pose proof (Z.mod_pos_bound (n - 1) 26 ltac:(lia)) as Hmod.
    assert (0 <= (n - 1) / 26) as Hq by (apply Z.div_pos; lia).
    destruct (IH ((n - 1) / 26) (String c letter)) as (letters & -> & Hback & Hup & Hlen & _).
    { lia. }
    { apply Z.div_lt_upper_bound; [lia|].
      rewrite Nat2Z.inj_succ, Z.pow_succ_r in Hsteps by lia. lia. }
    cbn [String.length] in Hlen.
    exists letters. split; [reflexivity|]. split; [|split; [|split]].
    + rewrite Hback, columnToNumber_loop_pass by lia.
      do 2 f_equal. lia.
    + intros Hletter. apply Hup. cbn [Js.all_chars].
      rewrite Hupper, Hletter. reflexivity.
    + lia.
    + lia.
Qed.

(** [getColumnLetter_loop] within the step bound of [getColumnLetter]. *)
Lemma getColumnLetter_returns (n : Z) (letter : string) :
  0 <= n <= Js.exact_limit ->
  exists letters,
    getColumnLetter_loop iterations (Js.Finite n) letter = Js.Return letters
    /\ columnToNumber letters = columnToNumber_loop letter (Js.Finite n)
    /\ (Js.all_chars Js.is_upper letter = true ->
        Js.all_chars Js.is_upper letters = true)
    /\ (String.length letter <= String.length letters)%nat
    /\ (1 <= n -> (String.length letter < String.length letters)%nat).
Proof.
  intros Hn. change iterations with (S 1099).
  apply columnToNumber_getColumnLetter_loop; [exact Hn|].
  apply Z.le_lt_trans with (26 ^ 12 - 1).
  - unfold Js.exact_limit in Hn. lia.
  - assert (26 ^ 12 <= 26 ^ Z.of_nat 1099)
      by (apply Z.pow_le_mono_r; lia).
    lia.
Qed.

End CoordFacts.

(** C1.  For every integer [n] from 1 to [2 ** 53], turning the column
    number into letters and reading the letters back gives [n] again:
    [getColumnLetter n] returns and [columnToNumber] of what it returns is
    [n]; and the letters for 1, 26, 27, 52, 702 and 703 are A, Z, AA, AZ, ZZ
    and AAA. *)
Theorem column_round_trip :
  (forall n : Z, 1 <= n <= Js.exact_limit ->
     exists letters,
       Coord.getColumnLetter (Js.Finite n) = Js.Return letters
       /\ Coord.columnToNumber letters = Js.Finite n)
  /\ Coord.getColumnLetter (Js.Finite 1) = Js.Return "A"
  /\ Coord.getColumnLetter (Js.Finite 26) = Js.Return "Z"
  /\ Coord.getColumnLetter (Js.Finite 27) = Js.Return "AA"
  /\ Coord.getColumnLetter (Js.Finite 52) = Js.Return "AZ"
  /\ Coord.getColumnLetter (Js.Finite 702) = Js.Return "ZZ"
  /\ Coord.getColumnLetter (Js.Finite 703) = Js.Return "AAA".
Proof.
  split.
  - intros n Hn.
    destruct (CoordFacts.getColumnLetter_returns n "" ltac:(lia))
      as (letters & Hletters & Hback & _).
    exists letters. split; [exact Hletters | exact Hback].
  - repeat split; vm_compute; reflexivity.
Qed.

Lemma column_round_trip_witness :
  1 <= 16384 <= Js.exact_limit
  /\ exists letters,
       Coord.getColumnLetter (Js.Finite 16384) = Js.Return letters
       /\ Coord.columnToNumber letters = Js.Finite 16384.
Proof.
  split; [unfold Js.exact_limit; lia|].
  apply (proj1 column_round_trip 16384). unfold Js.exact_limit. lia.
Defined.

(** C1, as stated for every integer [n >= 1], fails from [2 ** 53] on, where
    the arithmetic of the two functions rounds: [2 ** 53 + 2] is a number of
    the language, its letters are BKTXHSOGHKKG, and they read back as
    [2 ** 53]. *)
Lemma column_round_trip_rounds_above_exact_limit :
  ~ (forall n : Z, 1 <= n -> Js.round_int n = Js.Finite n ->
       exists letters,
         Coord.getColumnLetter (Js.Finite n) = Js.Return letters
         /\ Coord.columnToNumber letters = Js.Finite n).
Proof.
  intros Hall.
  destruct (Hall 9007199254740994 ltac:(lia) ltac:(vm_compute; reflexivity))
    as (letters & Hletters & Hback).
  assert (Coord.getColumnLetter (Js.Finite 9007199254740994)
          = Js.Return "BKTXHSOGHKKG") as Hcode by (vm_compute; reflexivity).
  rewrite Hcode in Hletters. injection Hletters as <-.
  assert (Coord.columnToNumber "BKTXHSOGHKKG" = Js.Finite 9007199254740992)
    as Hread by (vm_compute; reflexivity).
  rewrite Hread in Hback. discriminate Hback.
Qed.

(** ** Decimal numerals *)

Module NumeralFacts.
Local Open Scope Z_scope.

Lemma is_digit_pretty_N_char (x : N) : Js.is_digit (pretty_N_char x) = true.
Proof. unfold pretty_N_char. repeat case_match; reflexivity. Qed.

Lemma charCode_pretty_N_char (x : N) :
  (x < 10)%N -> Js.charCode (pretty_N_char x) - 48 = Z.of_N x.
Proof.
  intros Hx.
  assert (x = 0 \/ x = 1 \/ x = 2 \/ x = 3 \/ x = 4 \/ x = 5 \/ x = 6
          \/ x = 7 \/ x = 8 \/ x = 9)%N as Hcases by lia.
  repeat destruct Hcases as [-> | Hcases]; try reflexivity.
  subst x. reflexivity.
Qed.

Lemma digits_pretty_N_go (x : N) (s : string) :
  Js.all_chars Js.is_digit s = true ->
  Js.all_chars Js.is_digit (pretty_N_go x s) = true.
Proof.
  revert s. induction (N.lt_wf_0 x) as [x _ IH]; intros s Hs.
  destruct (decide (0 < x)%N) as [Hx|Hx].
  - rewrite pretty_N_go_step by exact Hx. apply IH.
    + apply N.div_lt; lia.
    + cbn [Js.all_chars]. rewrite is_digit_pretty_N_char. exact Hs.
  - assert (x = 0%N) as -> by lia. rewrite pretty_N_go_0. exact Hs.
Qed.

Lemma pretty_N_go_nonempty (x : N) (s : string) :
  s <> "" -> pretty_N_go x s <> "".
Proof.
  revert s. induction (N.lt_wf_0 x) as [x _ IH]; intros s Hs.
  destruct (decide (0 < x)%N) as [Hx|Hx].
  - rewrite pretty_N_go_step by exact Hx. apply IH; [|discriminate].
    apply N.div_lt; lia.
  - assert (x = 0%N) as -> by lia. rewrite pretty_N_go_0. exact Hs.
Qed.

Lemma parseInt_loop_pretty_N_go (x : N) (s : string) :
  Js.parseInt_loop (pretty_N_go x s) 0 = Js.parseInt_loop s (Z.of_N x).
Proof.
  revert s. induction (N.lt_wf_0 x) as [x _ IH]; intros s.
  destruct (decide (0 < x)%N) as [Hx|Hx].
  - rewrite pretty_N_go_step by exact Hx.
    rewrite IH by (apply N.div_lt; lia).
    cbn [Js.parseInt_loop]. rewrite is_digit_pretty_N_char.
    rewrite charCode_pretty_N_char by (apply N.mod_lt; lia).
    f_equal. rewrite N2Z.inj_div, N2Z.inj_mod.
    pose proof (Z.div_mod (Z.of_N x) 10). change (Z.of_N 10) with 10. lia.
  - assert (x = 0%N) as -> by lia. rewrite pretty_N_go_0. reflexivity.
Qed.

Lemma pretty_Z_nonneg (z : Z) : 0 <= z -> pretty z = pretty (Z.to_N z).
Proof. destruct z; [reflexivity|reflexivity|lia]. Qed.

(** The decimal numeral of a number that is not negative: digits only, at
    least one, and the digits read back as the number. *)
Lemma pretty_Z_numeral (z : Z) :
  0 <= z ->
  pretty z <> ""
  /\ Js.all_chars Js.is_digit (pretty z) = true
  /\ Js.parseInt_loop (pretty z) 0 = z.
Proof.
  intros Hz. rewrite pretty_Z_nonneg by exact Hz.
  unfold pretty, pretty_N. case_decide as Hzero.
  - assert (z = 0) as -> by lia. repeat split. discriminate.
  - split; [|split].
    + rewrite pretty_N_go_step by lia. apply pretty_N_go_nonempty. discriminate.
    + apply digits_pretty_N_go. reflexivity.
    + rewrite parseInt_loop_pretty_N_go.
      cbn [Js.parseInt_loop]. lia.
Qed.

(** [parseInt] reads the numeral of a number up to [2 ** 53] back. *)
Lemma parseInt_pretty (z : Z) :
  0 <= z <= Js.exact_limit -> Js.parseInt (pretty z) = Js.Finite z.
Proof.
  intros Hz. unfold Js.parseInt.
  destruct (pretty_Z_numeral z) as (_ & _ & ->); [lia|].
  apply NumberFacts.round_int_exact. lia.
Qed.

End NumeralFacts.

(** ** Start-cell parsing *)

Module ParseFacts.
Import Coord StringFacts Spec.

Lemma upper_not_digit (c : ascii) :
  Js.is_upper c = true -> Js.is_digit c = false.
Proof.
  unfold Js.is_upper, Js.is_digit. cbv zeta.
  rewrite andb_true_iff, andb_false_iff, !N.leb_le, !N.leb_gt. lia.
Qed.

Lemma digit_not_upper (c : ascii) :
  Js.is_digit c = true -> Js.is_upper c = false.
Proof.
  intros Hd. destruct (Js.is_upper c) eqn:Hu; [|reflexivity].
  apply upper_not_digit in Hu. congruence.
Qed.

(** A run followed by something that does not continue it. *)
Lemma take_run_app (p : ascii -> bool) (run rest : string) :
  Js.all_chars p run = true ->
  Js.take_run p (run +:+ rest) = run +:+ Js.take_run p rest.
Proof.
  induction run as [|c run IH]; intros Hall; [reflexivity|].
  cbn in Hall. apply andb_true_iff in Hall as [Hc Hrun].
  rewrite !append_cons. cbn [Js.take_run]. rewrite Hc, IH by exact Hrun.
  reflexivity.
Qed.

(** Characters outside the class are skipped by the match. *)
Lemma match_run_skip (p q : ascii -> bool) (skipped rest : string) :
  (forall c, q c = true -> p c = false) ->
  Js.all_chars q skipped = true ->
  Js.match_run p (skipped +:+ rest) = Js.match_run p rest.
Proof.
  intros Hpq. induction skipped as [|c skipped IH]; intros Hall; [reflexivity|].
  cbn in Hall. apply andb_true_iff in Hall as [Hc Hrest].
  rewrite append_cons. cbn [Js.match_run]. rewrite (Hpq c Hc). auto.
Qed.

Lemma match_run_here (p : ascii -> bool) (run rest : string) :
  run <> "" ->
  Js.all_chars p run = true ->
  Js.take_run p rest = "" ->
  Js.match_run p (run +:+ rest) = Some run.
Proof.
  destruct run as [|c run]; [congruence|]. intros _ Hall Hrest.
  cbn in Hall. apply andb_true_iff in Hall as [Hc Hrun].
  rewrite append_cons. cbn [Js.match_run]. rewrite Hc.
  rewrite take_run_app, Hrest, append_empty_r by exact Hrun.
  reflexivity.
Qed.

Lemma take_run_starts_outside (p q : ascii -> bool) (run rest : string) :
  (forall c, q c = true -> p c = false) ->
  run <> "" -> Js.all_chars q run = true ->
  Js.take_run p (run +:+ rest) = "".
Proof.
  intros Hpq. destruct run as [|c run]; [congruence|]. intros _ Hall.
  cbn in Hall. apply andb_true_iff in Hall as [Hc _].
  rewrite append_cons. cbn [Js.take_run]. rewrite (Hpq c Hc). reflexivity.
Qed.

Lemma or_else_nonempty (s fallback : string) :
  s <> "" -> Js.or_else (Some s) fallback = s.
Proof. destruct s; [congruence|reflexivity]. Qed.

(** What a reference made of a letter run, a digit run and then anything
    that does not start with a digit parses to. *)
Lemma parseStartCell_runs (letters digits tail : string) :
  letters <> "" -> Js.all_chars Js.is_upper letters = true ->
  digits <> "" -> Js.all_chars Js.is_digit digits = true ->
  Js.take_run Js.is_digit tail = "" ->
  parseStartCell (letters +:+ digits +:+ tail)
  = Js.Return (letters, Js.parseInt digits).
Proof.
  intros Hl Hup Hd Hdig Htail. unfold parseStartCell, startCol, startRow.
  rewrite (match_run_here Js.is_upper letters) by
    (try assumption;
     apply (take_run_starts_outside _ Js.is_digit); auto using digit_not_upper).
  rewrite (match_run_skip Js.is_digit Js.is_upper) by
    (auto using upper_not_digit).
  rewrite (match_run_here Js.is_digit digits) by assumption.
  rewrite !or_else_nonempty by assumption. reflexivity.
Qed.





End ParseFacts.




(** ** Unique sheet names *)

Module NameFacts.
Import Lib StringFacts Spec.

Lemma has_in_use (names : list string) (candidate : string) :
  has (existingNames names) (Js.toLowerCase candidate) = true
  <-> in_use names candidate.
Proof.
  unfold has, existingNames, in_use. rewrite bool_decide_eq_true.
  rewrite elem_of_list_to_set, list_elem_of_fmap.
  split; intros (n & H1 & H2); exists n; split; auto.
Qed.

Lemma has_not_in_use (names : list string) (candidate : string) :
  has (existingNames names) (Js.toLowerCase candidate) = false
  <-> ~ in_use names candidate.
Proof.
  rewrite <- has_in_use. destruct (has _ _); split; congruence.
Qed.

(** Two numbered candidates of one base name differ, also in lower case. *)
Lemma numbered_inj (baseName : string) (j k : Z) :
  Js.toLowerCase (numbered baseName j) = Js.toLowerCase (numbered baseName k) ->
  j = k.
Proof.
  unfold numbered. rewrite !toLowerCase_append, !toLowerCase_pretty_Z.
  intros Heq. do 2 apply String.app_inj in Heq.
  apply append_inj_l in Heq. apply (inj pretty) in Heq. exact Heq.
Qed.

(** What the loop has established when it stops. *)
Lemma countUp_stops (set : gset string) (baseName : string)
      (steps : nat) (counter found : Z) :
  countUp set baseName steps counter = Some found ->
  counter <= found
  /\ has set (Js.toLowerCase (numbered baseName found)) = false
  /\ forall j, counter <= j < found ->
       has set (Js.toLowerCase (numbered baseName j)) = true.
Proof.
  revert counter. induction steps as [|steps IH]; intros counter; [discriminate|].
  cbn [countUp].
  destruct (has set (Js.toLowerCase (numbered baseName counter))) eqn:Hhas.
  - intros Hfound. destruct (IH _ Hfound) as (Hle & Hfree & Hbelow).
    split; [lia|]. split; [exact Hfree|].
    intros j Hj. destruct (decide (j = counter)) as [->|Hne]; [exact Hhas|].
    apply Hbelow. lia.
  - intros [= <-]. split; [lia|]. split; [exact Hhas|]. intros j Hj. lia.
Qed.

(** More steps do not change an answer already found. *)
Lemma countUp_more_steps (set : gset string) (baseName : string)
      (steps steps' : nat) (counter found : Z) :
  (steps <= steps')%nat ->
  countUp set baseName steps counter = Some found ->
  countUp set baseName steps' counter = Some found.
Proof.
  revert steps' counter.
  induction steps as [|steps IH]; intros steps' counter Hle; [discriminate|].
  destruct steps' as [|steps']; [lia|]. cbn [countUp].
  destruct (has set _); [|tauto]. apply IH. lia.
Qed.

(** The loop stops within [size remaining + 1] tests when [remaining]
    holds every candidate from [counter] on that is in the set: each
    failed test uses up one element of [remaining]. *)
Lemma countUp_within (set : gset string) (baseName : string) (steps : nat) :
  forall (counter : Z) (remaining : gset string),
    (forall j, counter <= j ->
       Js.toLowerCase (numbered baseName j) ∈ set ->
       Js.toLowerCase (numbered baseName j) ∈ remaining) ->
    (size remaining < steps)%nat ->
    exists found, countUp set baseName steps counter = Some found.
Proof.
  induction steps as [|steps IH]; intros counter remaining Hrem Hsize; [lia|].
  cbn [countUp]. unfold has at 1. case_bool_decide as Hin; [|eauto].
  apply (IH (counter + 1) (remaining ∖ {[Js.toLowerCase (numbered baseName counter)]})).
  - intros j Hj Hjin. apply elem_of_difference. split.
    + apply Hrem; [lia|exact Hjin].
    + rewrite elem_of_singleton. intros Heq%numbered_inj. lia.
  - assert (Js.toLowerCase (numbered baseName counter) ∈ remaining) as Hc
      by (apply Hrem; [lia|exact Hin]).
    rewrite size_difference by set_solver. rewrite size_singleton.
    assert (size remaining <> 0%nat); [|lia].
    apply size_non_empty_iff. set_solver.
Qed.

Lemma countUp_terminates (names : list string) (baseName : string) (counter : Z) :
  exists found,
    countUp (existingNames names) baseName (enough_steps names) counter
    = Some found.
Proof.
  apply (countUp_within _ _ _ counter (existingNames names)); [auto|].
  unfold enough_steps. lia.
Qed.

Lemma uniqueSheetName_returns (names : list string) (baseName : string) :
  exists unique,
    uniqueSheetName (enough_steps names) names baseName = Some unique.
Proof.
  unfold uniqueSheetName. cbv zeta. destruct (negb _); [eauto|].
  destruct (countUp_terminates names baseName 2) as [found ->]. eauto.
Qed.

(** The name that the search settles on is not in use. *)
Lemma uniqueSheetName_unused (steps : nat) (names : list string)
      (baseName unique : string) :
  uniqueSheetName steps names baseName = Some unique ->
  ~ in_use names unique.
Proof.
  unfold uniqueSheetName. cbv zeta.
  destruct (has _ (Js.toLowerCase baseName)) eqn:Hbase; cbn [negb].
  - destruct (countUp _ _ _ _) as [found|] eqn:Hloop; [|discriminate].
    intros [= <-]. apply countUp_stops in Hloop as (_ & Hfree & _).
    apply has_not_in_use. exact Hfree.
  - intros [= <-]. apply has_not_in_use. exact Hbase.
Qed.

(** [generateUniqueSheetName] when its [sync] goes through. *)
Lemma generateUniqueSheetName_run {W} (host : Office.Host W)
      (baseName : string) (ctx : Office.RequestContext W) (w1 : W) :
  let load := Office.pending ctx ++ [Office.LoadSheets ["items/name"]] in
  Office.host_sync host load (Office.workbook ctx) = (None, w1) ->
  exists unique,
    uniqueSheetName (enough_steps (Office.sheets_names host w1))
      (Office.sheets_names host w1) baseName = Some unique
    /\ generateUniqueSheetName host baseName ctx
       = (Js.Return unique,
          {| Office.workbook := w1;
             Office.pending := [];
             Office.batches := Office.batches ctx ++ [load] |}).
Proof.
  cbv zeta. intros Hload.
  destruct (uniqueSheetName_returns (Office.sheets_names host w1) baseName)
    as [unique Hunique].
  exists unique. split; [exact Hunique|].
  unfold generateUniqueSheetName, mbind, Office.Async_bind, Office.queue,
    Office.sync, Office.loaded.
  cbn -[uniqueSheetName enough_steps]. rewrite Hload.
  cbn -[uniqueSheetName enough_steps]. rewrite Hunique. reflexivity.
Qed.

End NameFacts.

(** C5.  [generateUniqueSheetName] returns the base name unchanged when no
    existing sheet has it (upper and lower case not told apart); otherwise it
    returns ["{base} (k)"] for the smallest [k >= 2] whose candidate is not in
    use.  The names are those that the host reports at the function's
    [sync].  Against the names Backup and Backup (2) the base name Backup
    gives Backup (3); against no names at all it gives Backup. *)
Theorem uniqueSheetName_smallest_free :
  (forall (names : list string) (baseName : string),
     exists unique,
       Lib.uniqueSheetName (Lib.enough_steps names) names baseName = Some unique
       /\ ((~ Spec.in_use names baseName /\ unique = baseName)
           \/ (Spec.in_use names baseName
               /\ exists k, 2 <= k
                    /\ unique = Lib.numbered baseName k
                    /\ ~ Spec.in_use names (Lib.numbered baseName k)
                    /\ forall j, 2 <= j < k ->
                         Spec.in_use names (Lib.numbered baseName j))))
  /\ (forall W (host : Office.Host W) (baseName : string)
             (ctx : Office.RequestContext W) (w1 : W),
        Office.host_sync host
          (Office.pending ctx ++ [Office.LoadSheets ["items/name"]])
          (Office.workbook ctx) = (None, w1) ->
        exists unique,
          Lib.uniqueSheetName (Lib.enough_steps (Office.sheets_names host w1))
            (Office.sheets_names host w1) baseName = Some unique
          /\ fst (Lib.generateUniqueSheetName host baseName ctx)
             = Js.Return unique)
  /\ Lib.uniqueSheetName (Lib.enough_steps ["Backup"; "Backup (2)"])
       ["Backup"; "Backup (2)"] "Backup" = Some "Backup (3)"
  /\ Lib.uniqueSheetName (Lib.enough_steps []) [] "Backup" = Some "Backup".
Proof.
  split; [|split; [|split; vm_compute; reflexivity]];
    [|intros W host baseName ctx w1 Hload;
      destruct (NameFacts.generateUniqueSheetName_run host baseName ctx w1 Hload)
        as (unique & Hunique & ->); eauto].
  intros names baseName.
  destruct (NameFacts.uniqueSheetName_returns names baseName) as [unique Hu].
  exists unique. split; [exact Hu|].
  unfold Lib.uniqueSheetName in Hu. cbv zeta in Hu.
  destruct (Lib.has _ (Js.toLowerCase baseName)) eqn:Hbase; cbn [negb] in Hu.
  - right. apply NameFacts.has_in_use in Hbase. split; [exact Hbase|].
    destruct (Lib.countUp _ _ _ _) as [found|] eqn:Hloop; [|discriminate].
    injection Hu as <-.
    apply NameFacts.countUp_stops in Hloop as (Hle & Hfree & Hbelow).
    exists found. split; [exact Hle|]. split; [reflexivity|].
    split; [apply NameFacts.has_not_in_use; exact Hfree|].
    intros j Hj. apply NameFacts.has_in_use. apply Hbelow. exact Hj.
  - left. injection Hu as <-. split; [|reflexivity].
    apply NameFacts.has_not_in_use. exact Hbase.
Qed.

Lemma uniqueSheetName_smallest_free_witness :
  exists unique,
    Lib.uniqueSheetName (Lib.enough_steps ["Data"; "copy of data"; "COPY OF DATA (2)"])
      ["Data"; "copy of data"; "COPY OF DATA (2)"] "Copy of Data" = Some unique
    /\ unique = "Copy of Data (3)".
Proof.
  destruct (proj1 uniqueSheetName_smallest_free
              ["Data"; "copy of data"; "COPY OF DATA (2)"] "Copy of Data")
    as (unique & Hu & _).
  exists unique. split; [exact Hu|].
  vm_compute in Hu. injection Hu as <-. reflexivity.
Defined.

(** C6.  The search for an unused name always ends, and it ends on an
    unused name: for every base name and every list of existing sheet names,
    the loop over ["{base} (2)"], ["{base} (3)"], ... leaves its body after
    at most one test more than there are existing names, at a counter from 2
    on whose candidate is not in use while the candidates of all the counters
    before it are; and [generateUniqueSheetName] is never still running when
    that bound is spent: it returns a name that no sheet has whenever the
    host's [sync] does not throw. *)
Theorem generateUniqueSheetName_terminates :
  (forall (names : list string) (baseName : string),
     exists found,
       2 <= found
       /\ ~ Spec.in_use names (Lib.numbered baseName found)
       /\ (forall j, 2 <= j < found ->
             Spec.in_use names (Lib.numbered baseName j))
       /\ forall steps, (Lib.enough_steps names <= steps)%nat ->
            Lib.countUp (Lib.existingNames names) baseName steps 2 = Some found)
  /\ (forall (names : list string) (baseName : string),
        exists unique,
          Lib.uniqueSheetName (Lib.enough_steps names) names baseName
          = Some unique
          /\ ~ Spec.in_use names unique)
  /\ (forall W (host : Office.Host W) (baseName : string)
             (ctx : Office.RequestContext W),
        (exists unique ctx',
           Lib.generateUniqueSheetName host baseName ctx
           = (Js.Return unique, ctx')
           /\ ~ Spec.in_use
                  (Office.sheets_names host (Office.workbook ctx')) unique)
        \/ (exists thrown ctx',
              Lib.generateUniqueSheetName host baseName ctx
              = (Js.Throw thrown, ctx')
              /\ fst (Office.host_sync host
                        (Office.pending ctx ++ [Office.LoadSheets ["items/name"]])
                        (Office.workbook ctx)) = Some thrown)).
Proof.
  split; [|split].
  - intros names baseName.
    destruct (NameFacts.countUp_terminates names baseName 2) as [found Hf].
    exists found.
    destruct (NameFacts.countUp_stops _ _ _ _ _ Hf) as (Hle & Hfree & Hbefore).
    split; [exact Hle|].
    split; [apply NameFacts.has_not_in_use; exact Hfree|].
    split.
    + intros j Hj. apply NameFacts.has_in_use, Hbefore, Hj.
    + intros steps Hsteps.
      apply (NameFacts.countUp_more_steps _ _ (Lib.enough_steps names));
        assumption.
  - intros names baseName.
    destruct (NameFacts.uniqueSheetName_returns names baseName)
      as [unique Hunique].
    exists unique. split; [exact Hunique|].
    exact (NameFacts.uniqueSheetName_unused _ _ _ _ Hunique).
  - intros W host baseName ctx.
    destruct (Office.host_sync host
                (Office.pending ctx ++ [Office.LoadSheets ["items/name"]])
                (Office.workbook ctx)) as [[thrown|] w] eqn:Hsync.
    + right. exists thrown.
      unfold Lib.generateUniqueSheetName, mbind, Office.Async_bind,
        Office.queue, Office.sync, Office.loaded. cbn.
      rewrite Hsync. cbn. eauto.
    + left.
      destruct (NameFacts.generateUniqueSheetName_run host baseName ctx w Hsync)
        as (unique & Hunique & Hrun).
      exists unique. eexists. split; [exact Hrun|].
      cbn [Office.workbook].
      exact (NameFacts.uniqueSheetName_unused _ _ _ _ Hunique).
Qed.

Lemma generateUniqueSheetName_terminates_witness :
  (Lib.enough_steps ["Backup"; "Backup (2)"] <= 5)%nat
  /\ exists found,
       2 <= found
       /\ Lib.has (Lib.existingNames ["Backup"; "Backup (2)"])
                  (Js.toLowerCase (Lib.numbered "Backup" found)) = false
       /\ Lib.countUp (Lib.existingNames ["Backup"; "Backup (2)"]) "Backup" 5 2
          = Some found.
Proof.
  split; [vm_compute; lia|].
  destruct (proj1 generateUniqueSheetName_terminates
              ["Backup"; "Backup (2)"] "Backup")
    as (found & Hle & _ & _ & Hf).
  exists found. split; [exact Hle|].
  assert (Lib.countUp (Lib.existingNames ["Backup"; "Backup (2)"]) "Backup" 5 2
          = Some found) as Hfound by (apply Hf; vm_compute; lia).
  split; [|exact Hfound].
  assert (found = 3) as -> by (vm_compute in Hfound; congruence).
  vm_compute. reflexivity.
Defined.

(** ** Paste *)

Module PasteFacts.
Import Office Lib.

Lemma or_else_same (a : string) : Js.or_else (Some a) a = a.
Proof. destruct a; reflexivity. Qed.

(** What [pasteRange] does to a request context. *)
Lemma pasteRange_run {W} (host : Host W) (captured_ : CapturedRange)
      (targetSheet : Worksheet) (targetAddress_ : option string)
      (valuesOnly_ : option bool) (ctx : RequestContext W) :
  let write :=
    pasteCommand captured_
      (RangeOf targetSheet (pasteAddress captured_ targetAddress_))
      (default false valuesOnly_) in
  let batch := pending ctx ++ [write] in
  pasteRange host captured_ targetSheet targetAddress_ valuesOnly_ ctx
  = (match fst (host_sync host batch (workbook ctx)) with
     | Some thrown => Throw thrown
     | None => Return tt
     end,
     {| workbook := snd (host_sync host batch (workbook ctx));
        pending := [];
        batches := batches ctx ++ [batch] |}).
Proof.
  cbv zeta. unfold pasteRange, mbind, Async_bind, queue, sync. cbn.
  destruct (host_sync host _ _) as [[thrown|] w]; reflexivity.
Qed.

End PasteFacts.


(** The capture [[["=A1*2", ""]]] / [[[20, "x"]]] pasted with and without
    [valuesOnly]. *)
Example pasteRange_formula_and_literal :
  Office.batches
    (snd (Lib.pasteRange (Hosts.quiet Hosts.formula_and_literal [] 0)
            Hosts.formula_and_literal (Office.ItemWorksheet "Sheet2") None
            (Some false) (Lib.fresh tt)))
  = [[Office.SetFormulas (Office.RangeOf (Office.ItemWorksheet "Sheet2") "A1:B1")
        [["=A1*2"; ""]]]]
  /\ Office.batches
       (snd (Lib.pasteRange (Hosts.quiet Hosts.formula_and_literal [] 0)
               Hosts.formula_and_literal (Office.ItemWorksheet "Sheet2") None
               (Some true) (Lib.fresh tt)))
     = [[Office.SetValues (Office.RangeOf (Office.ItemWorksheet "Sheet2") "A1:B1")
           [[Office.CellNumber 20; Office.CellString "x"]]]].
Proof. split; reflexivity. Qed.

(** C10.  An empty [targetAddress] is treated like a missing one: the
    fallback [targetAddress || captured.address] tests truthiness, so
    [pasteRange] with the empty string does exactly what it does with no
    target address, and writes at the capture's own address. *)
Theorem pasteRange_empty_targetAddress :
  forall W (host : Office.Host W) (captured : Lib.CapturedRange)
         (targetSheet : Office.Worksheet) (valuesOnly : option bool)
         (ctx : Office.RequestContext W),
    Lib.pasteRange host captured targetSheet (Some "") valuesOnly ctx
    = Lib.pasteRange host captured targetSheet None valuesOnly ctx
    /\ Lib.pasteAddress captured (Some "") = Lib.address captured
    /\ Office.batches
         (snd (Lib.pasteRange host captured targetSheet (Some "") valuesOnly ctx))
       = Office.batches ctx
         ++ [Office.pending ctx
             ++ [Lib.pasteCommand captured
                   (Office.RangeOf targetSheet (Lib.address captured))
                   (default false valuesOnly)]].
Proof.
  intros W host captured targetSheet valuesOnly ctx.
  split; [reflexivity|]. split; [reflexivity|].
  rewrite PasteFacts.pasteRange_run. reflexivity.
Qed.

(** ** Sheet creation *)

Module SheetFacts.
Import Office Lib Spec.

(** [createSheet] when its first [sync] goes through. *)
Lemma createSheet_run {W} (host : Host W) (options : CreateSheetOptions)
      (ctx : RequestContext W) (w1 : W) :
  let load := pending ctx ++ [LoadSheet ActiveWorksheet ["position"]] in
  let add := AddSheet (name options)
             :: placement options (sheet_position host w1 ActiveWorksheet) in
  host_sync host load (workbook ctx) = (None, w1) ->
  createSheet host options ctx
  = (match fst (host_sync host add w1) with
     | Some thrown => Throw thrown
     | None => Return (AddedWorksheet (name options))
     end,
     {| workbook := snd (host_sync host add w1);
        pending := [];
        batches := batches ctx ++ [load; add] |}).
Proof.
  cbv zeta. intros Hload.
  unfold createSheet, placement, mbind, Async_bind, mret, Async_ret,
    queue, sync, loaded.
  cbn. rewrite Hload. cbn.
  destruct (position options) as [[]|]; cbn;
    destruct (host_sync host _ w1) as [[thrown|] w2]; cbn;
    rewrite <- app_assoc; reflexivity.
Qed.

(** [createSheet] when its first [sync] throws: nothing is added. *)
Lemma createSheet_load_throws {W} (host : Host W) (options : CreateSheetOptions)
      (ctx : RequestContext W) (thrown : Js.Thrown) (w1 : W) :
  let load := pending ctx ++ [LoadSheet ActiveWorksheet ["position"]] in
  host_sync host load (workbook ctx) = (Some thrown, w1) ->
  createSheet host options ctx
  = (Throw thrown,
     {| workbook := w1; pending := []; batches := batches ctx ++ [load] |}).
Proof.
  cbv zeta. intros Hload.
  unfold createSheet, mbind, Async_bind, queue, sync. cbn. rewrite Hload.
  reflexivity.
Qed.

End SheetFacts.

(** C8.  [createSheet] places the new sheet relative to the active sheet's
    position as loaded by its first [sync]: with [position = "before"] it
    sets the new sheet's position to the active sheet's position; with
    [position = "end"] it sets no position and leaves the host's placement;
    with [position = "after"] or no position it sets the new sheet's position
    to the active sheet's position plus one. *)
Theorem createSheet_position :
  forall W (host : Office.Host W) (options : Lib.CreateSheetOptions)
         (ctx : Office.RequestContext W) (w1 : W),
    let load :=
      Office.pending ctx
      ++ [Office.LoadSheet Office.ActiveWorksheet ["position"]] in
    let active := Office.sheet_position host w1 Office.ActiveWorksheet in
    let newSheet := Office.AddedWorksheet (Lib.name options) in
    Office.host_sync host load (Office.workbook ctx) = (None, w1) ->
    exists positioning,
      Office.batches (snd (Lib.createSheet host options ctx))
      = Office.batches ctx
        ++ [load; Office.AddSheet (Lib.name options) :: positioning]
      /\ (Lib.position options = Some Lib.before ->
          positioning = [Office.SetPosition newSheet active])
      /\ (Lib.position options = Some Lib.at_end -> positioning = [])
      /\ (Lib.position options = Some Lib.after \/ Lib.position options = None ->
          positioning = [Office.SetPosition newSheet (active + 1)]).
Proof.
  intros W host options ctx w1 load active newSheet Hload.
  exists (Spec.placement options active).
  rewrite (SheetFacts.createSheet_run host options ctx w1 Hload).
  split; [reflexivity|]. unfold Spec.placement.
  split; [|split].
  - intros ->. reflexivity.
  - intros ->. reflexivity.
  - intros [-> | ->]; reflexivity.
Qed.

Lemma createSheet_position_witness :
  exists positioning,
    Office.batches
      (snd (Lib.createSheet (Hosts.quiet Hosts.data_B2_C3 ["Data"] 4)
              {| Lib.name := Some "Copy of Data"; Lib.position := Some Lib.before |}
              (Lib.fresh tt)))
    = [[Office.LoadSheet Office.ActiveWorksheet ["position"]];
       Office.AddSheet (Some "Copy of Data") :: positioning]
    /\ positioning
       = [Office.SetPosition (Office.AddedWorksheet (Some "Copy of Data")) 4].
Proof.
  destruct (createSheet_position unit (Hosts.quiet Hosts.data_B2_C3 ["Data"] 4)
              {| Lib.name := Some "Copy of Data"; Lib.position := Some Lib.before |}
              (Lib.fresh tt) tt eq_refl)
    as (positioning & Hbatches & Hbefore & _ & _).
  exists positioning. split; [exact Hbatches|]. apply Hbefore. reflexivity.
Defined.

(** ** Composed automations *)

Module AutomationFacts.
Import Office Lib Spec.

Lemma uniqueSheetName_free (steps : nat) (names : list string) (baseName : string) :
  ~ Spec.in_use names baseName ->
  uniqueSheetName steps names baseName = Some baseName.
Proof.
  intros Hfree%NameFacts.has_not_in_use. unfold uniqueSheetName. cbv zeta.
  rewrite Hfree. reflexivity.
Qed.

(** Unfolding of the sequencing operators, one [sync] at a time. *)
Ltac unfold_async :=
  unfold copySelectionToNewSheet, copySelectionToNewSheet_batch,
    duplicateSelection, duplicateSelection_batch,
    captureSelection, generateUniqueSheetName, createSheet, pasteRange,
    try_catch, run, mbind, Async_bind, mret, Async_ret, queue, sync, loaded,
    still_running, fresh in *.

Ltac simpl_run H :=
  cbn -[uniqueSheetName enough_steps Js.or_else captured_from] in H.

(** Case analysis on the next [sync] of the run in hypothesis [H]. *)
Ltac next_sync_in H :=
  match type of H with
  | context [host_sync ?h ?b ?w] =>
      let thrown := fresh "thrown" in
      let w' := fresh "w" in
      let Hsync := fresh "Hsync" in
      destruct (host_sync h b w) as [[thrown|] w'] eqn:Hsync;
      cbn -[uniqueSheetName enough_steps Js.or_else captured_from] in H
  end.

(** Case analysis on the next [sync] of the run in the goal. *)
Ltac next_sync :=
  match goal with
  | |- context [host_sync ?h ?b ?w] =>
      let thrown := fresh "thrown" in
      let w' := fresh "w" in
      destruct (host_sync h b w) as [[thrown|] w'];
      cbn -[uniqueSheetName enough_steps Js.or_else captured_from]
  end.

Ltac simpl_goal :=
  cbn -[uniqueSheetName enough_steps Js.or_else captured_from].




End AutomationFacts.

(** C3.  A run of [copySelectionToNewSheet] without a [sheetName] option that
    succeeds, when no existing sheet is called ["Copy of {sourceSheet}"]
    (upper and lower case not told apart), has created a sheet of exactly
    that name, has pasted the capture on the new sheet at the address it was
    captured from, has activated the new sheet unless [activateNewSheet] is
    [false], and returns the capture, the new sheet's name and the capture's
    address as [pastedAddress]. *)
Theorem copySelectionToNewSheet_success :
  forall W (host : Office.Host W) (options : Lib.CopyToNewSheetOptions)
         (w w1 w2 : W) (result : Lib.AutomationResult Lib.CopyToNewSheetResult)
         (ctx' : Office.RequestContext W),
    let cap :=
      Lib.captured_from host Office.SelectedRange Office.ActiveWorksheet w1 in
    let newName := "Copy of " +:+ Lib.sourceSheet cap in
    Lib.sheetName options = None ->
    Office.host_sync host
      [Office.LoadRange Office.SelectedRange
         ["address"; "values"; "formulas"; "rowCount"; "columnCount"];
       Office.LoadSheet Office.ActiveWorksheet ["name"]] w = (None, w1) ->
    Office.host_sync host [Office.LoadSheets ["items/name"]] w1 = (None, w2) ->
    ~ Spec.in_use (Office.sheets_names host w2) newName ->
    Lib.copySelectionToNewSheet host options (Lib.fresh w)
    = (Js.Return result, ctx') ->
    Lib.success result = true ->
    result = Lib.succeeded {| Lib.captured := cap;
                              Lib.newSheetName := newName;
                              Lib.pastedAddress := Lib.address cap |}
    /\ exists w3,
         Office.host_sync host
           [Office.LoadSheet Office.ActiveWorksheet ["position"]] w2
         = (None, w3)
         /\ Office.batches ctx'
            = Spec.copy_batches cap newName
                (Office.sheet_position host w3 Office.ActiveWorksheet)
                (default false (Lib.valuesOnly options))
                (bool_decide (Lib.activateNewSheet options <> Some false)).
Proof.
  intros W host options w w1 w2 result ctx' cap newName
         Hname Hsync1 Hsync2 Hfree Hrun Hsuccess.
  subst cap newName.
  AutomationFacts.unfold_async. AutomationFacts.simpl_run Hrun.
  rewrite Hsync1 in Hrun. AutomationFacts.simpl_run Hrun.
  match type of Hrun with
  | context [if ?degenerate then _ else _] => destruct degenerate
  end; AutomationFacts.simpl_run Hrun.
  { injection Hrun as <- _. discriminate Hsuccess. }
  rewrite Hsync2 in Hrun. AutomationFacts.simpl_run Hrun.
  rewrite Hname in Hrun. cbn [Js.or_else] in Hrun.
  rewrite (AutomationFacts.uniqueSheetName_free _ _ _ Hfree) in Hrun.
  AutomationFacts.simpl_run Hrun.
  AutomationFacts.next_sync_in Hrun; [injection Hrun as <- _; discriminate Hsuccess|].
  AutomationFacts.next_sync_in Hrun; [injection Hrun as <- _; discriminate Hsuccess|].
  unfold Lib.pasteAddress in Hrun. rewrite PasteFacts.or_else_same in Hrun.
  AutomationFacts.next_sync_in Hrun; [injection Hrun as <- _; discriminate Hsuccess|].
  unfold Spec.copy_batches, Lib.pasteCommand in *.
  case_bool_decide; AutomationFacts.simpl_run Hrun.
  - AutomationFacts.next_sync_in Hrun; [injection Hrun as <- _; discriminate Hsuccess|].
    injection Hrun as <- <-. split; [reflexivity|].
    eexists. split; reflexivity.
  - injection Hrun as <- <-. split; [reflexivity|].
    eexists. split; reflexivity.
Qed.

Lemma copySelectionToNewSheet_success_witness :
  exists result ctx',
    Lib.copySelectionToNewSheet (Hosts.quiet Hosts.data_B2_C3 ["Data"] 0)
      {| Lib.sheetName := None; Lib.valuesOnly := None;
         Lib.activateNewSheet := None |} (Lib.fresh tt)
    = (Js.Return result, ctx')
    /\ result = Lib.succeeded {| Lib.captured := Hosts.data_B2_C3;
                                 Lib.newSheetName := "Copy of Data";
                                 Lib.pastedAddress := "B2:C3" |}
    /\ Office.batches ctx'
       = Spec.copy_batches Hosts.data_B2_C3 "Copy of Data" 0
           false true.
Proof.
  pose (host := Hosts.quiet Hosts.data_B2_C3 ["Data"] 0).
  pose (options := {| Lib.sheetName := None; Lib.valuesOnly := None;
                      Lib.activateNewSheet := None |}).
  exists (Lib.succeeded {| Lib.captured := Hosts.data_B2_C3;
                           Lib.newSheetName := "Copy of Data";
                           Lib.pastedAddress := "B2:C3" |}).
  exists {| Office.workbook := tt; Office.pending := [];
            Office.batches :=
              Spec.copy_batches Hosts.data_B2_C3 "Copy of Data" 0
                false true |}.
  assert (Lib.copySelectionToNewSheet host options (Lib.fresh tt)
          = (Js.Return
               (Lib.succeeded {| Lib.captured := Hosts.data_B2_C3;
                                 Lib.newSheetName := "Copy of Data";
                                 Lib.pastedAddress := "B2:C3" |}),
             {| Office.workbook := tt; Office.pending := [];
                Office.batches :=
                  Spec.copy_batches Hosts.data_B2_C3
                    "Copy of Data" 0 false true |})) as Hrun
    by (vm_compute; reflexivity).
  split; [exact Hrun|].
  destruct (copySelectionToNewSheet_success unit host options tt tt tt _ _
              eq_refl eq_refl eq_refl
              (proj1 (NameFacts.has_not_in_use ["Data"] "Copy of Data") eq_refl)
              Hrun eq_refl) as (Hresult & w3 & _ & Hbatches).
  split; [exact Hresult|]. destruct w3. exact Hbatches.
Defined.

(** C4 does not hold as stated.  On a host that reports a selection without
    rows and accepts every batch, [duplicateSelection] pastes the empty
    capture and returns success: it has no test of the captured dimensions.
    And the message of [copySelectionToNewSheet] is "No cells selected", with
    a capital N. *)
Lemma degenerate_selection_not_always_failure :
  Lib.rowCount Hosts.nothing_selected = 0
  /\ fst (Lib.duplicateSelection (Hosts.quiet Hosts.nothing_selected ["Data"] 0)
            "D5" None (Lib.fresh tt))
     = Js.Return (Lib.succeeded {| Lib.sourceAddress := "A1";
                                   Lib.targetAddress := "D5" |})
  /\ fst (Lib.copySelectionToNewSheet
            (Hosts.quiet Hosts.nothing_selected ["Data"] 0)
            {| Lib.sheetName := None; Lib.valuesOnly := None;
               Lib.activateNewSheet := None |} (Lib.fresh tt))
     = Js.Return (Lib.failure "No cells selected")
  /\ ~ Spec.degenerate_selection_fails.
Proof.
  split; [reflexivity|]. split; [vm_compute; reflexivity|].
  split; [vm_compute; reflexivity|].
  intros Hclaim.
  destruct (Hclaim unit (Hosts.quiet Hosts.nothing_selected ["Data"] 0) tt tt
              eq_refl (or_introl eq_refl)) as [_ Hduplicate].
  destruct (Hduplicate "D5" None) as (message & ctx' & Hrun).
  vm_compute in Hrun. discriminate Hrun.
Qed.

(** C4, amended.  When the capture of [copySelectionToNewSheet] has no rows
    or no columns, the automation returns the failure "No cells selected",
    and the only batch it has handed to the host is the capture's loads: no
    sheet is created before the failure is returned. *)
Theorem copySelectionToNewSheet_nothing_selected :
  forall W (host : Office.Host W) (options : Lib.CopyToNewSheetOptions)
         (ctx : Office.RequestContext W) (w1 : W),
    Office.host_sync host Spec.capture_loads (Office.workbook ctx)
    = (None, w1) ->
    Spec.degenerate
      (Lib.captured_from host Office.SelectedRange Office.ActiveWorksheet w1) ->
    Lib.copySelectionToNewSheet host options ctx
    = (Js.Return (Lib.failure "No cells selected"),
       {| Office.workbook := w1;
          Office.pending := [];
          Office.batches :=
            Office.batches ctx ++ [Spec.capture_loads] |}).
Proof.
  intros W host options ctx w1 Hsync Hdegenerate.
  unfold Spec.capture_loads in *.
  AutomationFacts.unfold_async. AutomationFacts.simpl_goal.
  rewrite Hsync. AutomationFacts.simpl_goal.
  assert ((Lib.rowCount
             (Lib.captured_from host Office.SelectedRange
                Office.ActiveWorksheet w1) =? 0)%Z
          || (Lib.columnCount
                (Lib.captured_from host Office.SelectedRange
                   Office.ActiveWorksheet w1) =? 0)%Z = true) as ->.
  { apply orb_true_iff. destruct Hdegenerate as [-> | ->]; auto. }
  reflexivity.
Qed.

Lemma copySelectionToNewSheet_nothing_selected_witness :
  Lib.copySelectionToNewSheet (Hosts.quiet Hosts.nothing_selected ["Data"] 0)
    {| Lib.sheetName := Some "Backup"; Lib.valuesOnly := Some true;
       Lib.activateNewSheet := Some false |} (Lib.fresh tt)
  = (Js.Return (Lib.failure "No cells selected"),
     {| Office.workbook := tt;
        Office.pending := [];
        Office.batches := [Spec.capture_loads] |}).
Proof.
  apply (copySelectionToNewSheet_nothing_selected unit
           (Hosts.quiet Hosts.nothing_selected ["Data"] 0)
           {| Lib.sheetName := Some "Backup"; Lib.valuesOnly := Some true;
              Lib.activateNewSheet := Some false |} (Lib.fresh tt) tt).
  - reflexivity.
  - left. reflexivity.
Defined.



(** * Further properties of the sources *)

(** ** Column letters, the other way round *)

Module ColumnFacts.
Import Coord StringFacts.
Local Open Scope Z_scope.

Lemma charCode_upper (c : ascii) :
  Js.is_upper c = true -> 65 <= Js.charCode c <= 90.
Proof.
  unfold Js.is_upper, Js.charCode. cbv zeta.
  rewrite andb_true_iff, !N.leb_le. lia.
Qed.

Lemma charCode_inj (c d : ascii) : Js.charCode c = Js.charCode d -> c = d.
Proof.
  unfold Js.charCode. intros Heq. apply N2Z.inj in Heq.
  rewrite <- (ascii_N_embedding c), <- (ascii_N_embedding d), Heq.
  reflexivity.
Qed.

(** Reading at most eleven capitals stays within [2 ** 53], and writing out
    the number that was read gives the letters back, in front of whatever
    was already written. *)
Lemma getColumnLetter_loop_columnToNumber_loop (col : string) :
  Js.all_chars Js.is_upper col = true ->
  forall num : Z,
    0 <= num ->
    (num + 2) * 26 ^ Z.of_nat (String.length col) <= Js.exact_limit + 2 ->
    exists n,
      columnToNumber_loop col (Js.Finite num) = Js.Finite n
      /\ num <= n <= Js.exact_limit
      /\ n + 2 <= (num + 2) * 26 ^ Z.of_nat (String.length col)
      /\ (col <> "" -> num < n)
      /\ forall (steps : nat) (letter : string),
           getColumnLetter_loop (String.length col + steps) (Js.Finite n) letter
           = getColumnLetter_loop steps (Js.Finite num) (col +:+ letter).
Proof.
  induction col as [|c col IH]; intros Hupper num Hnum Hfit.
  - exists num. cbn [String.length columnToNumber_loop] in *. cbn in Hfit.
    repeat split; try lia. congruence.
  - cbn in Hupper. apply andb_true_iff in Hupper as [Hc Hcol].
    pose proof (charCode_upper c Hc) as Hcode.
    cbn [String.length] in Hfit.
    rewrite Nat2Z.inj_succ, Z.pow_succ_r in Hfit by lia.
    assert (0 < 26 ^ Z.of_nat (String.length col)) as Hpow
      by (apply Z.pow_pos_nonneg; lia).
    set (next := num * 26 + (Js.charCode c - 64)).
    assert (next + 2 <= 26 * (num + 2)) as Hnext by (unfold next; lia).
    destruct (IH Hcol next) as (n & Hread & Hn & Hbound & _ & Hwrite).
    { unfold next. lia. }
    { nia. }
    exists n. split; [|split; [|split; [|split]]].
    + rewrite CoordFacts.columnToNumber_loop_pass; [exact Hread|lia|lia|].
      fold next. nia.
    + unfold next in *. lia.
    + cbn [String.length]. rewrite Nat2Z.inj_succ, Z.pow_succ_r by lia. nia.
    + intros _. unfold next in *. lia.
    + intros steps letter. cbn [String.length].
      replace (S (String.length col) + steps)%nat
        with (String.length col + S steps)%nat by lia.
      rewrite Hwrite.
      destruct (CoordFacts.getColumnLetter_loop_pass steps next
                  (col +:+ letter)) as (c' & -> & Hcode' & _).
      { unfold next. unfold Js.exact_limit in *. nia. }
      replace ((next - 1) / 26) with num
        by (apply (Z.div_unique _ 26 num (Js.charCode c - 65));
            unfold next; lia).
      replace ((next - 1) mod 26) with (Js.charCode c - 65) in Hcode'
        by (apply (Z.mod_unique _ 26 num (Js.charCode c - 65));
            unfold next; lia).
      assert (c' = c) as -> by (apply charCode_inj; lia).
      rewrite append_cons. reflexivity.
Qed.

(** On [Infinity] the loop of [getColumnLetter] is still running after any
    number of steps. *)
Lemma getColumnLetter_loop_Infinity (steps : nat) :
  forall letter, getColumnLetter_loop steps Js.PosInfinity letter = Js.Running.
Proof.
  induction steps as [|steps IH]; intros letter; [reflexivity|].
  cbn. apply IH.
Qed.

(** The number of at most eleven capitals, and its letters. *)
Lemma columnToNumber_short (col : string) :
  Js.all_chars Js.is_upper col = true ->
  (String.length col <= 11)%nat ->
  exists n : Z,
    columnToNumber col = Js.Finite n
    /\ 0 <= n <= Js.exact_limit
    /\ (col <> "" -> 1 <= n)
    /\ getColumnLetter (Js.Finite n) = Js.Return col.
Proof.
  intros Hupper Hlength.
  destruct (getColumnLetter_loop_columnToNumber_loop col Hupper 0)
    as (n & Hread & Hn & _ & Hpos & Hwrite); [lia| |].
  { assert (26 ^ Z.of_nat (String.length col) <= 26 ^ 11)
      by (apply Z.pow_le_mono_r; lia).
    unfold Js.exact_limit. lia. }
  exists n. split; [exact Hread|]. split; [lia|]. split.
  - intros Hne. specialize (Hpos Hne). lia.
  - unfold getColumnLetter.
    replace iterations
      with (String.length col + S (1099 - String.length col))%nat
      by (unfold iterations; lia).
    rewrite Hwrite, CoordFacts.getColumnLetter_loop_done by lia.
    rewrite append_empty_r. reflexivity.
Qed.

End ColumnFacts.

(** ** The step bound of the letter loop *)

Module FuelFacts.
Import Js Coord.
Local Open Scope Z_scope.





End FuelFacts.

(** X1.  [getColumnLetter] undoes [columnToNumber] on every string of at
    most eleven letters A to Z (the empty string included, whose number is
    0): the number of such a string is an integer up to [2 ** 53], at least 1
    when the string is not empty, and its letters are the string. *)
Theorem getColumnLetter_columnToNumber :
  forall col : string,
    Js.all_chars Js.is_upper col = true ->
    (String.length col <= 11)%nat ->
    exists n : Z,
      Coord.columnToNumber col = Js.Finite n
      /\ 0 <= n <= Js.exact_limit
      /\ (col <> "" -> 1 <= n)
      /\ Coord.getColumnLetter (Coord.columnToNumber col) = Js.Return col.
Proof.
  intros col Hupper Hlength.
  destruct (ColumnFacts.columnToNumber_short col Hupper Hlength)
    as (n & Hread & Hn & Hpos & Hwrite).
  exists n. rewrite Hread. auto.
Qed.

(** Beyond eleven letters the bound of X1 is needed: twelve times Z reads as
    a number above [2 ** 53] that is rounded, and its letters are others. *)
Example twelve_letters_round :
  Coord.columnToNumber "ZZZZZZZZZZZZ" = Js.Finite 99246114928149472
  /\ Coord.getColumnLetter (Coord.columnToNumber "ZZZZZZZZZZZZ")
     = Js.Return "AAAAAAAAAAAAK".
Proof. split; vm_compute; reflexivity. Qed.

Lemma getColumnLetter_columnToNumber_witness :
  exists n : Z,
    Coord.columnToNumber "XFD" = Js.Finite n
    /\ 0 <= n <= Js.exact_limit
    /\ 1 <= n
    /\ Coord.getColumnLetter (Coord.columnToNumber "XFD") = Js.Return "XFD".
Proof.
  destruct (getColumnLetter_columnToNumber "XFD" eq_refl ltac:(cbn; lia))
    as (n & Hread & Hn & Hpos & Hback).
  exists n. split; [exact Hread|]. split; [exact Hn|].
  split; [apply Hpos; discriminate | exact Hback].
Defined.



(** ** Stripping the sheet prefix of an address *)

Module AddressFacts.
Import StringFacts.

Lemma rev_app_rev_app (s t u : string) :
  String.rev_app (String.rev_app s t) u = String.rev_app t (s +:+ u).
Proof.
  revert t. induction s as [|c s IH]; intros t; [reflexivity|].
  cbn [String.rev_app]. rewrite IH. reflexivity.
Qed.

Lemma rev_rev_app (s : string) : String.rev (String.rev_app s "") = s.
Proof.
  unfold String.rev. rewrite rev_app_rev_app. cbn [String.rev_app].
  apply append_empty_r.
Qed.

Lemma includes_rev_app (sep : ascii) (s t : string) :
  Js.includes sep (String.rev_app s t) = Js.includes sep s || Js.includes sep t.
Proof.
  revert t. induction s as [|c s IH]; intros t; [reflexivity|].
  cbn [String.rev_app Js.includes]. rewrite IH. cbn [Js.includes].
  destruct (Ascii.eqb c sep), (Js.includes sep s), (Js.includes sep t);
    reflexivity.
Qed.

Lemma includes_append (sep : ascii) (s t : string) :
  Js.includes sep (s +:+ t) = Js.includes sep s || Js.includes sep t.
Proof.
  induction s as [|c s IH]; [reflexivity|].
  rewrite append_cons. cbn [Js.includes]. rewrite IH, orb_assoc. reflexivity.
Qed.

(** Splitting a piece that has no separator in it: it only grows the
    segment being read. *)
Lemma split_loop_free (sep : ascii) (piece rest cur : string) :
  Js.includes sep piece = false ->
  Js.split_loop sep (piece +:+ rest) cur
  = Js.split_loop sep rest (String.rev_app piece cur).
Proof.
  revert cur. induction piece as [|c piece IH]; intros cur Hfree; [reflexivity|].
  cbn [Js.includes] in Hfree. apply orb_false_iff in Hfree as [Hc Hpiece].
  rewrite append_cons. cbn [Js.split_loop String.rev_app]. rewrite Hc.
  apply IH. exact Hpiece.
Qed.

(** No segment of a split has the separator in it. *)
Lemma split_loop_segments (sep : ascii) (s cur : string) :
  Js.includes sep cur = false ->
  Forall (fun segment => Js.includes sep segment = false)
         (Js.split_loop sep s cur).
Proof.
  revert cur. induction s as [|c s IH]; intros cur Hcur; cbn [Js.split_loop].
  - constructor; [|constructor]. unfold String.rev.
    rewrite includes_rev_app, Hcur. reflexivity.
  - destruct (Ascii.eqb c sep) eqn:Hc.
    + constructor; [|apply IH; reflexivity]. unfold String.rev.
      rewrite includes_rev_app, Hcur. reflexivity.
    + apply IH. cbn [Js.includes]. rewrite Hc, Hcur. reflexivity.
Qed.

(** An address of the shape [before!address!...]. *)
Lemma addressOnly_second_segment (before address_ : string) (more : option string) :
  Js.includes "!" before = false ->
  Js.includes "!" address_ = false ->
  Lib.addressOnly
    (before +:+ "!" +:+ address_
     +:+ match more with Some rest => "!" +:+ rest | None => "" end)
  = address_.
Proof.
  intros Hbefore Haddress. unfold Lib.addressOnly.
  rewrite includes_append. cbn [Js.includes append]. rewrite orb_true_r.
  unfold Js.split. rewrite split_loop_free by exact Hbefore.
  rewrite append_cons, append_nil. cbn [Js.split_loop Ascii.eqb].
  change (Ascii.eqb "!" "!") with true. cbv iota.
  rewrite split_loop_free by exact Haddress.
  destruct more as [rest|].
  - rewrite append_cons, append_nil. cbn [Js.split_loop].
    change (Ascii.eqb "!" "!") with true. cbv iota.
    cbn [lookup list_lookup default from_option]. apply rev_rev_app.
  - cbn [Js.split_loop lookup list_lookup default from_option].
    apply rev_rev_app.
Qed.

Lemma addressOnly_free (range_address : string) :
  Js.includes "!" (Lib.addressOnly range_address) = false.
Proof.
  unfold Lib.addressOnly.
  destruct (Js.includes "!" range_address) eqn:Hincludes; [|exact Hincludes].
  pose proof (split_loop_segments "!" range_address "" eq_refl) as Hsegments.
  fold (Js.split "!" range_address) in Hsegments.
  destruct (Js.split "!" range_address !! 1%nat) as [segment|] eqn:Hlookup;
    [|reflexivity].
  rewrite Forall_forall in Hsegments. apply Hsegments.
  eapply list_elem_of_lookup_2. exact Hlookup.
Qed.

End AddressFacts.

(** X3.  The address normalisation of the capture functions removes a sheet
    prefix and leaves an address without prefix alone: for a sheet name and
    an address without exclamation mark, ["{sheet}!{address}"] becomes
    [address], and [address] stays [address]. *)
Theorem addressOnly_strips_prefix :
  forall sheet address : string,
    Js.includes "!" sheet = false ->
    Js.includes "!" address = false ->
    Lib.addressOnly (sheet +:+ "!" +:+ address) = address
    /\ Lib.addressOnly address = address.
Proof.
  intros sheet address Hsheet Haddress. split.
  - rewrite <- (AddressFacts.addressOnly_second_segment sheet address None)
      at 2 by assumption.
    cbv iota. rewrite StringFacts.append_empty_r. reflexivity.
  - unfold Lib.addressOnly. rewrite Haddress. reflexivity.
Qed.

Lemma addressOnly_strips_prefix_witness :
  Lib.addressOnly ("Sheet1" +:+ "!" +:+ "A1:C10") = "A1:C10"
  /\ Lib.addressOnly "A1:C10" = "A1:C10".
Proof. apply addressOnly_strips_prefix; reflexivity. Defined.

(** X4.  The normalised address never has an exclamation mark in it,
    whatever the host returns; when the host's address has a second
    exclamation mark (as in a sheet name with one), only the piece between
    the first two is kept and the rest is lost. *)
Theorem addressOnly_no_separator :
  (forall range_address : string,
     Js.includes "!" (Lib.addressOnly range_address) = false)
  /\ (forall before address rest : string,
        Js.includes "!" before = false ->
        Js.includes "!" address = false ->
        Lib.addressOnly (before +:+ "!" +:+ address +:+ "!" +:+ rest) = address).
Proof.
  split.
  - exact AddressFacts.addressOnly_free.
  - intros before address rest Hbefore Haddress.
    exact (AddressFacts.addressOnly_second_segment before address (Some rest)
             Hbefore Haddress).
Qed.

Lemma addressOnly_no_separator_witness :
  Lib.addressOnly ("Q1" +:+ "!" +:+ "Plan" +:+ "!" +:+ "B2:C3") = "Plan".
Proof. apply (proj2 addressOnly_no_separator); reflexivity. Defined.

(** ** Cell references of the task pane *)

Module RefFacts.
Import Coord StringFacts Statements.
Local Open Scope Z_scope.

Lemma all_chars_take_run (p : ascii -> bool) (s : string) :
  Js.all_chars p (Js.take_run p s) = true.
Proof.
  induction s as [|c s IH]; [reflexivity|]. cbn [Js.take_run].
  destruct (p c) eqn:Hc; [|reflexivity]. cbn [Js.all_chars]. rewrite Hc, IH.
  reflexivity.
Qed.

Lemma match_run_shape (p : ascii -> bool) (s run : string) :
  Js.match_run p s = Some run -> run <> "" /\ Js.all_chars p run = true.
Proof.
  induction s as [|c s IH]; [discriminate|]. cbn [Js.match_run].
  destruct (p c) eqn:Hc; [|exact IH].
  intros [= <-]. split; [discriminate|].
  cbn [Js.all_chars]. rewrite Hc, all_chars_take_run. reflexivity.
Qed.

(** The start column is never empty and is made of capital letters. *)
Lemma startCol_shape (startCell : string) :
  startCol startCell <> ""
  /\ Js.all_chars Js.is_upper (startCol startCell) = true.
Proof.
  unfold startCol.
  destruct (Js.match_run Js.is_upper startCell) as [run|] eqn:Hrun.
  - apply match_run_shape in Hrun as [Hne Hupper].
    rewrite ParseFacts.or_else_nonempty by exact Hne. auto.
  - split; [discriminate|reflexivity].
Qed.

Lemma parseInt_loop_nonneg (s : string) (acc : Z) :
  0 <= acc -> 0 <= Js.parseInt_loop s acc.
Proof.
  revert acc. induction s as [|c s IH]; intros acc Hacc; [exact Hacc|].
  cbn [Js.parseInt_loop]. destruct (Js.is_digit c) eqn:Hc; [|exact Hacc].
  apply IH. unfold Js.is_digit, Js.charCode in *. cbv zeta in Hc.
  apply andb_true_iff in Hc as [Hlow _]. apply N.leb_le in Hlow. lia.
Qed.

(** A start row that is finite is not negative. *)
Lemma startRow_nonneg (startCell : string) (first : Z) :
  startRow startCell = Js.Finite first -> 0 <= first.
Proof.
  unfold startRow, Js.parseInt.
  set (digits := Js.or_else _ _).
  pose proof (parseInt_loop_nonneg digits 0 ltac:(lia)) as Hvalue.
  destruct (Z.eq_dec (Js.parseInt_loop digits 0) 0) as [->|Hpos].
  - intros [= <-]. lia.
  - destruct (NumberFacts.round_int_positive (Js.parseInt_loop digits 0))
      as [(r & -> & Hr) | ->]; [lia| |discriminate].
    intros [= <-]. lia.
Qed.

(** Reading capitals gives a positive number or overflows to [Infinity]. *)
Lemma columnToNumber_pass_sign (c : ascii) (num : Js.number) :
  Js.is_upper c = true ->
  num = Js.Finite 0 \/ positive_or_Infinity num ->
  positive_or_Infinity
    (Js.add (Js.mul num (Js.Finite 26))
            (Js.sub (Js.Finite (Js.charCode c)) (Js.Finite 64))).
Proof.
  intros Hc Hnum. apply ColumnFacts.charCode_upper in Hc.
  rewrite NumberFacts.sub_exact by (unfold Js.exact_limit; lia).
  destruct Hnum as [-> | [-> | (a & -> & Ha)]].
  - right. exists (Js.charCode c - 64). split; [|lia].
    cbn [Js.mul]. rewrite NumberFacts.round_int_exact
      by (unfold Js.exact_limit; lia).
    rewrite NumberFacts.add_exact by (unfold Js.exact_limit; lia).
    f_equal.
  - left. reflexivity.
  - cbn [Js.mul].
    destruct (NumberFacts.round_int_positive (a * 26)) as [(r & -> & Hr) | ->];
      [lia| |left; reflexivity].
    cbn [Js.add].
    destruct (NumberFacts.round_int_positive (r + (Js.charCode c - 64)))
      as [(r' & -> & Hr') | ->]; [lia| |left; reflexivity].
    right. eauto.
Qed.

Lemma columnToNumber_loop_sign (col : string) :
  Js.all_chars Js.is_upper col = true ->
  forall num, positive_or_Infinity num ->
    positive_or_Infinity (columnToNumber_loop col num).
Proof.
  induction col as [|c col IH]; intros Hupper num Hnum; [exact Hnum|].
  cbn in Hupper. apply andb_true_iff in Hupper as [Hc Hcol].
  cbn [columnToNumber_loop]. apply IH; [exact Hcol|].
  apply columnToNumber_pass_sign; auto.
Qed.

(** A start column whose number is finite has a number from 1 on. *)
Lemma startColumn_positive (startCell : string) (column : Z) :
  columnToNumber (startCol startCell) = Js.Finite column -> 1 <= column.
Proof.
  destruct (startCol_shape startCell) as [Hne Hupper].
  destruct (startCol startCell) as [|c col]; [congruence|].
  cbn in Hupper. apply andb_true_iff in Hupper as [Hc Hcol].
  unfold columnToNumber. cbn [columnToNumber_loop]. intros Hread.
  destruct (columnToNumber_loop_sign col Hcol _
              (columnToNumber_pass_sign c (Js.Finite 0) Hc (or_introl eq_refl)))
    as [Hinf | (a & Ha & Hpos)]; rewrite Hread in *; [discriminate|].
  injection Ha as ->. lia.
Qed.

(** The reference of a cell whose column number and row number are exact:
    the letters of the column number, then the numeral of the row number. *)
Lemma cellRef_exact (startCell : string) (row col column first : Z) :
  columnToNumber (startCol startCell) = Js.Finite column ->
  startRow startCell = Js.Finite first ->
  0 <= row -> 0 <= col ->
  column + col <= Js.exact_limit -> first + row <= Js.exact_limit ->
  exists letters,
    getColumnLetter (Js.Finite (column + col)) = Js.Return letters
    /\ letters <> "" /\ Js.all_chars Js.is_upper letters = true
    /\ columnToNumber letters = Js.Finite (column + col)
    /\ cellRef startCell (Js.Finite row) (Js.Finite col)
       = Js.Return (letters +:+ pretty (first + row)).
Proof.
  intros Hcolumn Hfirst Hrow Hcol Hcolumns Hrows.
  pose proof (startColumn_positive _ _ Hcolumn) as Hpos.
  pose proof (startRow_nonneg _ _ Hfirst) as Hnonneg.
  destruct (CoordFacts.getColumnLetter_returns (column + col) "" ltac:(lia))
    as (letters & Hletters & Hback & Hupper & _ & Hlonger).
  exists letters. split; [exact Hletters|]. split; [|split; [|split]].
  - intros ->. specialize (Hlonger ltac:(lia)). cbn in Hlonger. lia.
  - apply Hupper. reflexivity.
  - exact Hback.
  - unfold cellRef. rewrite Hcolumn, Hfirst.
    rewrite !NumberFacts.add_exact by lia.
    fold (getColumnLetter (Js.Finite (column + col))) in Hletters.
    rewrite Hletters. unfold Js.toString.
    destruct (Z.leb_spec (Z.abs (first + row)) Js.exact_limit); [|lia].
    reflexivity.
Qed.

(** Such a reference parses back to its letters and its row number. *)
Lemma parseStartCell_reference (letters : string) (n : Z) :
  letters <> "" -> Js.all_chars Js.is_upper letters = true ->
  0 <= n <= Js.exact_limit ->
  Spec.well_formed (letters +:+ pretty n)
  /\ parseStartCell (letters +:+ pretty n) = Js.Return (letters, Js.Finite n).
Proof.
  intros Hne Hupper Hn.
  destruct (NumeralFacts.pretty_Z_numeral n) as (Hdigit & Hdigits & _); [lia|].
  split.
  - exists letters, (pretty n). auto.
  - rewrite <- (append_empty_r (pretty n)).
    rewrite ParseFacts.parseStartCell_runs; try assumption; try reflexivity.
    rewrite NumeralFacts.parseInt_pretty by exact Hn. reflexivity.
Qed.

Lemma cellRef_inj (startCell : string) (row col row' col' : Z) :
  columns_exact startCell (col + 1) -> rows_exact startCell (row + 1) ->
  columns_exact startCell (col' + 1) -> rows_exact startCell (row' + 1) ->
  0 <= row -> 0 <= col -> 0 <= row' -> 0 <= col' ->
  cellRef startCell (Js.Finite row) (Js.Finite col)
  = cellRef startCell (Js.Finite row') (Js.Finite col') ->
  row = row' /\ col = col'.
Proof.
  intros (column & Hcolumn & Hc) (first & Hfirst & Hr)
         (column' & Hcolumn' & Hc') (first' & Hfirst' & Hr')
         Hrow Hcol Hrow' Hcol' Heq.
  rewrite Hcolumn in Hcolumn'. injection Hcolumn' as <-.
  rewrite Hfirst in Hfirst'. injection Hfirst' as <-.
  pose proof (startRow_nonneg _ _ Hfirst) as Hnonneg.
  destruct (cellRef_exact startCell row col column first)
    as (letters & _ & Hne & Hupper & Hback & Href); try assumption; try lia.
  destruct (cellRef_exact startCell row' col' column first)
    as (letters' & _ & Hne' & Hupper' & Hback' & Href'); try assumption; try lia.
  rewrite Href, Href' in Heq. injection Heq as Heq.
  apply (f_equal parseStartCell) in Heq.
  rewrite (proj2 (parseStartCell_reference letters (first + row) Hne Hupper
                    ltac:(lia))) in Heq.
  rewrite (proj2 (parseStartCell_reference letters' (first + row') Hne' Hupper'
                    ltac:(lia))) in Heq.
  injection Heq as Hletters Hrows. subst letters'.
  rewrite Hback in Hback'. injection Hback' as Hcols. lia.
Qed.

End RefFacts.

(** X5.  The references that [extractSelectionData] composes parse back.
    For a start cell whose column number and row number are finite and an
    offset that takes neither of them beyond [2 ** 53], the reference of the
    cell is the letters of its column number followed by the decimal numeral
    of its row number; it is a run of capital letters followed by a run of
    digits, and the start-cell parse of it returns those letters and that
    row. *)
Theorem cellRef_parses_back :
  forall (startCell : string) (row col column first : Z),
    Coord.columnToNumber (Coord.startCol startCell) = Js.Finite column ->
    Coord.startRow startCell = Js.Finite first ->
    0 <= row -> 0 <= col ->
    column + col <= Js.exact_limit -> first + row <= Js.exact_limit ->
    exists letters,
      Coord.getColumnLetter (Js.Finite (column + col)) = Js.Return letters
      /\ Coord.cellRef startCell (Js.Finite row) (Js.Finite col)
         = Js.Return (letters +:+ pretty (first + row))
      /\ Spec.well_formed (letters +:+ pretty (first + row))
      /\ Coord.parseStartCell (letters +:+ pretty (first + row))
         = Js.Return (letters, Js.Finite (first + row)).
Proof.
  intros startCell row col column first Hcolumn Hfirst Hrow Hcol Hc Hr.
  destruct (RefFacts.cellRef_exact startCell row col column first)
    as (letters & Hletters & Hne & Hupper & _ & Href); try assumption.
  pose proof (RefFacts.startRow_nonneg _ _ Hfirst) as Hnonneg.
  exists letters. split; [exact Hletters|]. split; [exact Href|].
  apply RefFacts.parseStartCell_reference; [assumption|assumption|lia].
Qed.

Lemma cellRef_parses_back_witness :
  exists letters,
    Coord.getColumnLetter (Js.Finite (52 + 1)) = Js.Return letters
    /\ Coord.cellRef "AZ9" (Js.Finite 1) (Js.Finite 1)
       = Js.Return (letters +:+ pretty (9 + 1))
    /\ Coord.parseStartCell (letters +:+ pretty (9 + 1))
       = Js.Return (letters, Js.Finite (9 + 1)).
Proof.
  destruct (cellRef_parses_back "AZ9" 1 1 52 9 eq_refl eq_refl
              ltac:(lia) ltac:(lia)
              ltac:(unfold Js.exact_limit; lia)
              ltac:(unfold Js.exact_limit; lia))
    as (letters & Hletters & Href & _ & Hparse).
  exists letters. auto.
Defined.

(** X6.  Two cells of a selection never get the same reference while the
    column numbers and row numbers are exact: from one start cell, different
    offsets that stay within [2 ** 53] give different references. *)
Theorem cellRef_distinct :
  forall (startCell : string) (row col row' col' : Z),
    Statements.columns_exact startCell (col + 1) ->
    Statements.rows_exact startCell (row + 1) ->
    Statements.columns_exact startCell (col' + 1) ->
    Statements.rows_exact startCell (row' + 1) ->
    0 <= row -> 0 <= col -> 0 <= row' -> 0 <= col' ->
    Coord.cellRef startCell (Js.Finite row) (Js.Finite col)
    = Coord.cellRef startCell (Js.Finite row') (Js.Finite col') ->
    row = row' /\ col = col'.
Proof. exact RefFacts.cellRef_inj. Qed.

Lemma cellRef_distinct_witness :
  Coord.cellRef "B2" (Js.Finite 3) (Js.Finite 1) = Js.Return "C5"
  /\ Coord.cellRef "B2" (Js.Finite (2 + 1)) (Js.Finite (0 + 1)) = Js.Return "C5"
  /\ (3 = 2 + 1 /\ 1 = 0 + 1).
Proof.
  split; [vm_compute; reflexivity|]. split; [vm_compute; reflexivity|].
  assert (forall count, count <= 10 -> Statements.columns_exact "B2" count)
    as Hcolumns.
  { intros count Hcount. exists 2. split; [reflexivity|].
    unfold Js.exact_limit. lia. }
  assert (forall count, count <= 10 -> Statements.rows_exact "B2" count)
    as Hrows.
  { intros count Hcount. exists 2. split; [reflexivity|].
    unfold Js.exact_limit. lia. }
  apply (cellRef_distinct "B2" 3 1 (2 + 1) (0 + 1));
    try (apply Hcolumns; lia); try (apply Hrows; lia); try lia.
  vm_compute. reflexivity.
Defined.

(** Beyond [2 ** 53] the bound of X6 is needed: the row numbers of the two
    cells below round to the same number. *)
Example cellRef_same_beyond_exact_limit :
  Coord.cellRef "A9007199254740992" (Js.Finite 0) (Js.Finite 0)
  = Js.Return "A9007199254740992"
  /\ Coord.cellRef "A9007199254740992" (Js.Finite 1) (Js.Finite 0)
     = Js.Return "A9007199254740992".
Proof. split; vm_compute; reflexivity. Qed.

(** ** The cells of a selection *)

Module CellFacts.
Import Office Taskpane Statements.
Local Open Scope Z_scope.

(** A counted loop that returns has run its body once at every index below
    the count; up to [2 ** 53] it is that run. *)
Lemma for_count_returned {S} (count : Z) (body : Z -> S -> Completion S)
      (st st' : S) :
  for_count count body st = Return st' ->
  count <= Js.exact_limit /\ for_each (seqZ 0 count) body st = Return st'.
Proof.
  unfold for_count. destruct (Z.leb_spec count Js.exact_limit); [auto|].
  destruct (for_each _ _ _); discriminate.
Qed.

Lemma for_count_exact {S} (count : Z) (body : Z -> S -> Completion S) (st : S) :
  count <= Js.exact_limit ->
  for_count count body st = for_each (seqZ 0 count) body st.
Proof.
  intros Hcount. unfold for_count.
  destruct (Z.leb_spec count Js.exact_limit); [reflexivity|lia].
Qed.

(** A loop whose body, when it returns, appends to a view [proj] of the
    state a list that is related to [g i] has appended lists related to all
    of them, in the order of the indices, when it returns. *)
Lemma for_each_appends {S B C} (proj : S -> list B) (R : B -> C -> Prop)
      (g : Z -> list C) (body : Z -> S -> Completion S) :
  (forall i st st', body i st = Return st' ->
     exists new, proj st' = proj st ++ new /\ Forall2 R new (g i)) ->
  forall indices st st',
    for_each indices body st = Return st' ->
    exists new, proj st' = proj st ++ new /\ Forall2 R new (indices ≫= g).
Proof.
  intros Hbody. induction indices as [|i later IH]; intros st st' Hloop.
  - injection Hloop as <-. exists []. rewrite app_nil_r. split; [reflexivity|].
    constructor.
  - cbn [for_each] in Hloop.
    destruct (body i st) as [st1| |] eqn:Hi; try discriminate.
    destruct (Hbody _ _ _ Hi) as (new1 & Hst1 & Hnew1).
    destruct (IH _ _ Hloop) as (new2 & Hst' & Hnew2).
    exists (new1 ++ new2). rewrite Hst', Hst1, app_assoc.
    split; [reflexivity|]. cbn. apply Forall2_app; assumption.
Qed.

(** A loop keeps what every returning run of its body keeps. *)
Lemma for_each_keeps {S} (P : S -> Prop) (body : Z -> S -> Completion S) :
  (forall i st st', body i st = Return st' -> P st -> P st') ->
  forall indices st st',
    for_each indices body st = Return st' -> P st -> P st'.
Proof.
  intros Hbody. induction indices as [|i later IH]; intros st st' Hloop Hst.
  - injection Hloop as <-. exact Hst.
  - cbn [for_each] in Hloop.
    destruct (body i st) as [st1| |] eqn:Hi; try discriminate.
    eapply IH; [exact Hloop|]. eapply Hbody; eassumption.
Qed.




(** The cell that the loop body pushes. *)
Lemma pushCell_returned (includeFormulas : bool) (startCell : string)
      (values formulas : list (list CellValue)) (row col : Z)
      (cells_ cells' : list CellData) :
  pushCell includeFormulas startCell values formulas row col cells_
  = Return cells' ->
  exists cellRef value_ formula_,
    Coord.cellRef startCell (Js.Finite row) (Js.Finite col) = Return cellRef
    /\ index2 values row col = Return value_
    /\ index2 formulas row col = Return formula_
    /\ cells' = cells_ ++ [{| ref := cellRef;
                              value := value_;
                              formula := formulaField includeFormulas formula_ |}].
Proof.
  unfold pushCell.
  destruct (Coord.cellRef _ _ _) as [cellRef| |]; try discriminate.
  destruct (index2 values row col) as [value_| |]; try discriminate.
  destruct (index2 formulas row col) as [formula_| |]; try discriminate.
  intros [= <-]. eauto 10.
Qed.








Lemma elem_of_offsets (rowCount columnCount row col : Z) :
  (row, col) ∈ offsets rowCount columnCount
  <-> 0 <= row < rowCount /\ 0 <= col < columnCount.
Proof.
  unfold offsets. rewrite list_elem_of_bind. split.
  - intros (row' & Hin & Hrow). apply list_elem_of_bind in Hin as (col' & Hin & Hcol).
    apply list_elem_of_singleton in Hin. injection Hin as -> ->.
    apply elem_of_seqZ in Hrow, Hcol. lia.
  - intros [Hrow Hcol]. exists row. split; [|apply elem_of_seqZ; lia].
    apply list_elem_of_bind. exists col.
    split; [apply list_elem_of_singleton; reflexivity|apply elem_of_seqZ; lia].
Qed.

Lemma NoDup_offsets (rowCount columnCount : Z) :
  NoDup (offsets rowCount columnCount).
Proof.
  unfold offsets. apply NoDup_bind; [| |apply NoDup_seqZ].
  - intros row row' r _ _ Hr Hr'.
    apply list_elem_of_bind in Hr as (col & Hr & _).
    apply list_elem_of_bind in Hr' as (col' & Hr' & _).
    apply list_elem_of_singleton in Hr, Hr'. subst r. congruence.
  - intros row _. apply NoDup_bind; [| |apply NoDup_seqZ].
    + intros col col' r _ _ Hr Hr'.
      apply list_elem_of_singleton in Hr, Hr'. subst r. congruence.
    + intros col _. apply NoDup_singleton.
Qed.

(** The cells that the loop returns are composed at the offsets of the
    selection, row by row. *)
Lemma selectionCells_refs (includeFormulas : bool) (fullAddress : string)
      (rowCount columnCount : Z) (values formulas : list (list CellValue))
      (cells_ : list CellData) :
  selectionCells includeFormulas fullAddress rowCount columnCount values formulas
  = Return cells_ ->
  Forall2 (composed_at (startCellOf (Lib.addressOnly fullAddress)))
          cells_ (offsets rowCount columnCount).
Proof.
  unfold selectionCells, offsets. cbv zeta. intros Hloop.
  apply for_count_returned in Hloop as [_ Hloop].
  apply (for_each_appends (fun st => st)
           (composed_at (startCellOf (Lib.addressOnly fullAddress)))
           (fun row => seqZ 0 columnCount ≫= fun col => [(row, col)]))
    in Hloop.
  - destruct Hloop as (new & -> & Hnew). exact Hnew.
  - intros row st st' Hrow.
    apply for_count_returned in Hrow as [_ Hrow].
    apply (for_each_appends (fun st => st)
             (composed_at (startCellOf (Lib.addressOnly fullAddress)))
             (fun col => [(row, col)])) in Hrow; [exact Hrow|].
    intros col cells0 cells1 Hpush.
    apply pushCell_returned in Hpush as (r & v & f & Href & _ & _ & ->).
    eexists. split; [reflexivity|]. constructor; [exact Href|constructor].
Qed.

(** Cells that are related to distinct offsets by a relation that tells the
    offsets of equal keys apart have distinct keys. *)
Lemma NoDup_related {B C K} (key : B -> K) (R : B -> C -> Prop)
      (l : list B) (related : list C) :
  Forall2 R l related -> NoDup related ->
  (forall b b' c c', c ∈ related -> c' ∈ related ->
     R b c -> R b' c' -> key b = key b' -> c = c') ->
  NoDup (key <$> l).
Proof.
  induction 1 as [|b c l related Hbc Hrest IH]; intros Hdistinct Hkey.
  - constructor.
  - apply NoDup_cons in Hdistinct as [Hfresh Hdistinct]. cbn.
    apply NoDup_cons. split.
    + intros Hin. apply list_elem_of_fmap in Hin as (b' & Hsame & Hb').
      apply list_elem_of_lookup in Hb' as [i Hi].
      destruct (Forall2_lookup_l _ _ _ _ _ Hrest Hi) as (c' & Hc' & Hbc').
      apply list_elem_of_lookup_2 in Hc'.
      assert (c = c') as <-.
      { apply (Hkey b b'); auto using list_elem_of_here, list_elem_of_further. }
      contradiction.
    + apply IH; [exact Hdistinct|].
      intros b1 b2 c1 c2 Hc1 Hc2. apply Hkey; apply list_elem_of_further; assumption.
Qed.

Lemma formulaField_shape (includeFormulas : bool) (formula_ : option CellValue) :
  match formulaField includeFormulas formula_ with
  | None => True
  | Some text => includeFormulas = true /\ exists rest, text = String "=" rest
  end.
Proof.
  unfold formulaField, hasFormula.
  destruct includeFormulas; [|exact I]. cbn [andb].
  destruct formula_ as [[[|c rest]| | |]|]; try exact I.
  destruct c as [[] [] [] [] [] [] [] []]; try exact I.
  split; [reflexivity|]. exists rest. reflexivity.
Qed.



Lemma selectionCells_formulas (includeFormulas : bool) (fullAddress : string)
      (rowCount columnCount : Z) (values formulas : list (list CellValue))
      (cells_ : list CellData) :
  selectionCells includeFormulas fullAddress rowCount columnCount values formulas
  = Return cells_ ->
  Forall (formula_or_null includeFormulas) cells_.
Proof.
  unfold selectionCells. cbv zeta. intros Hloop.
  apply for_count_returned in Hloop as [_ Hloop].
  apply (for_each_keeps (Forall (formula_or_null includeFormulas))) in Hloop;
    [exact Hloop| |constructor].
  intros row st st' Hrow Hst.
  apply for_count_returned in Hrow as [_ Hrow].
  apply (for_each_keeps (Forall (formula_or_null includeFormulas))) in Hrow;
    [exact Hrow| |exact Hst].
  intros col cells0 cells1 Hpush Hcells0.
  apply pushCell_returned in Hpush as (r & v & f & _ & _ & _ & ->).
  apply Forall_app. split; [exact Hcells0|].
  constructor; [|constructor]. apply formulaField_shape.
Qed.

End CellFacts.



(** X8.  The cells that the loop returns carry the references of the
    selection row by row, each composed from the start cell and the offset
    of the cell; and while the column numbers and the row numbers of the
    selection are exact, no two cells carry the same reference. *)
Theorem selectionCells_references :
  forall (includeFormulas : bool) (fullAddress : string)
         (rowCount columnCount : Z)
         (values formulas : list (list Office.CellValue))
         (cells : list Taskpane.CellData),
    Taskpane.selectionCells includeFormulas fullAddress rowCount columnCount
                            values formulas = Js.Return cells ->
    Forall2 (Statements.composed_at
               (Taskpane.startCellOf (Lib.addressOnly fullAddress)))
            cells (Statements.offsets rowCount columnCount)
    /\ (Statements.columns_exact
          (Taskpane.startCellOf (Lib.addressOnly fullAddress)) columnCount ->
        Statements.rows_exact
          (Taskpane.startCellOf (Lib.addressOnly fullAddress)) rowCount ->
        NoDup (Taskpane.ref <$> cells)).
Proof.
  intros includeFormulas fullAddress rowCount columnCount values formulas cells
         Hcells.
  pose proof (CellFacts.selectionCells_refs _ _ _ _ _ _ _ Hcells) as Hrefs.
  split; [exact Hrefs|].
  intros (column & Hcolumn & Hfit) (first & Hfirst & Hfit').
  apply (CellFacts.NoDup_related Taskpane.ref _ _ _ Hrefs
           (CellFacts.NoDup_offsets rowCount columnCount)).
  intros cell cell' [row col] [row' col'] Hin Hin' Href Href' Hsame.
  apply CellFacts.elem_of_offsets in Hin, Hin'.
  unfold Statements.composed_at in Href, Href'. cbn [fst snd] in Href, Href'.
  rewrite <- Hsame, <- Href in Href'.
  destruct (RefFacts.cellRef_inj
              (Taskpane.startCellOf (Lib.addressOnly fullAddress))
              row col row' col') as [-> ->];
    try lia; try (symmetry; exact Href');
    try (exists column; split; [exact Hcolumn|lia]);
    try (exists first; split; [exact Hfirst|lia]).
  reflexivity.
Qed.

Lemma selectionCells_references_witness :
  Forall2 (Statements.composed_at
             (Taskpane.startCellOf (Lib.addressOnly "Sheet1!B2:C2")))
    [ {| Taskpane.ref := "B2"; Taskpane.value := Some (Office.CellNumber 1);
         Taskpane.formula := None |};
      {| Taskpane.ref := "C2"; Taskpane.value := None;
         Taskpane.formula := None |} ]
    (Statements.offsets 1 2)
  /\ NoDup ["B2"; "C2"].
Proof.
  destruct (selectionCells_references false "Sheet1!B2:C2" 1 2
              [[Office.CellNumber 1]] [[Office.CellNumber 1]] _ eq_refl)
    as [Hrefs Hdistinct].
  split; [exact Hrefs|]. apply Hdistinct.
  - exists 2. split; [reflexivity|]. unfold Js.exact_limit. lia.
  - exists 2. split; [reflexivity|]. unfold Js.exact_limit. lia.
Defined.

(** X9.  The [formula] field of every returned cell is [null] or a string
    that starts with [=], and it is [null] everywhere when formulas are not
    included: a literal that the host reports in the formulas grid is never
    passed on as a formula. *)
Theorem selectionCells_formula_field :
  forall (includeFormulas : bool) (fullAddress : string)
         (rowCount columnCount : Z)
         (values formulas : list (list Office.CellValue))
         (cells : list Taskpane.CellData),
    Taskpane.selectionCells includeFormulas fullAddress rowCount columnCount
                            values formulas = Js.Return cells ->
    Forall (fun cell =>
              match Taskpane.formula cell with
              | None => True
              | Some text =>
                  includeFormulas = true /\ exists rest, text = String "=" rest
              end) cells.
Proof.
  intros includeFormulas fullAddress rowCount columnCount values formulas cells
         Hcells.
  exact (CellFacts.selectionCells_formulas _ _ _ _ _ _ _ Hcells).
Qed.

Lemma selectionCells_formula_field_witness :
  Forall (fun cell =>
            match Taskpane.formula cell with
            | None => True
            | Some text => true = true /\ exists rest, text = String "=" rest
            end)
    [ {| Taskpane.ref := "B2"; Taskpane.value := Some (Office.CellNumber 4);
         Taskpane.formula := Some "=A1*2" |};
      {| Taskpane.ref := "C2"; Taskpane.value := Some (Office.CellString "x");
         Taskpane.formula := None |} ].
Proof.
  exact (selectionCells_formula_field true "Sheet1!B2:C2" 1 2
           [[Office.CellNumber 4; Office.CellString "x"]]
           [[Office.CellString "=A1*2"; Office.CellString "x"]] _ eq_refl).
Defined.



(** Without that proviso the missing row is not reached: on a start column
    whose number has overflowed to [Infinity], the loop of [getColumnLetter]
    at the first cell is still running after any number of steps. *)
Example selectionCells_column_overflow :
  forall (includeFormulas : bool) (column : string) (rowCount columnCount : Z)
         (values formulas : list (list Office.CellValue)),
    Coord.columnToNumber (Coord.startCol column) = Js.PosInfinity ->
    0 < rowCount <= Js.exact_limit -> 0 < columnCount <= Js.exact_limit ->
    Taskpane.startCellOf (Lib.addressOnly column) = column ->
    Taskpane.selectionCells includeFormulas column rowCount columnCount
                            values formulas = Js.Running.
Proof.
  intros includeFormulas column rowCount columnCount values formulas
         Hinf Hrows Hcolumns Hstart.
  unfold Taskpane.selectionCells. cbv zeta. rewrite Hstart.
  rewrite CellFacts.for_count_exact by lia.
  rewrite (seqZ_cons 0 rowCount) by lia. cbn [Taskpane.for_each].
  rewrite CellFacts.for_count_exact by lia.
  rewrite (seqZ_cons 0 columnCount) by lia. cbn [Taskpane.for_each].
  unfold Taskpane.pushCell, Coord.cellRef. rewrite Hinf.
  cbn [Js.add]. unfold Coord.getColumnLetter.
  rewrite ColumnFacts.getColumnLetter_loop_Infinity. reflexivity.
Qed.

(** Such a start column: 218 times Z. *)
Example selectionCells_never_returns_on_overflow :
  Coord.columnToNumber
    (Coord.startCol
       "ZZZZZZZZZZZZZZZZZZZZZZZZZZZZZZZZZZZZZZZZZZZZZZZZZZZZZZZZZZZZZZZZZZZZZZZZZZZZZZZZZZZZZZZZZZZZZZZZZZZZZZZZZZZZZZZZZZZZZZZZZZZZZZZZZZZZZZZZZZZZZZZZZZZZZZZZZZZZZZZZZZZZZZZZZZZZZZZZZZZZZZZZZZZZZZZZZZZZZZZZZZZZZZZZZZZZZZZZZZ1")
  = Js.PosInfinity
  /\ Taskpane.selectionCells true
       "ZZZZZZZZZZZZZZZZZZZZZZZZZZZZZZZZZZZZZZZZZZZZZZZZZZZZZZZZZZZZZZZZZZZZZZZZZZZZZZZZZZZZZZZZZZZZZZZZZZZZZZZZZZZZZZZZZZZZZZZZZZZZZZZZZZZZZZZZZZZZZZZZZZZZZZZZZZZZZZZZZZZZZZZZZZZZZZZZZZZZZZZZZZZZZZZZZZZZZZZZZZZZZZZZZZZZZZZZZZ1"
       1 1 [[Office.CellNumber 1]] [[Office.CellNumber 1]]
     = Js.Running.
Proof. split; vm_compute; reflexivity. Qed.

(** ** Capture *)

Module CaptureFacts.
Import Office Lib Statements.

Lemma captureRange_run {W} (host : Host W) (address_ : string)
      (sheetName_ : option string) (ctx : RequestContext W) :
  let sheet := sheet_read sheetName_ in
  let range := RangeOf sheet address_ in
  let batch := pending ctx ++ range_loads range sheet in
  captureRange host address_ sheetName_ ctx
  = (match fst (host_sync host batch (workbook ctx)) with
     | Some thrown => Throw thrown
     | None =>
         Return (captured_from host range sheet
                   (snd (host_sync host batch (workbook ctx))))
     end,
     {| workbook := snd (host_sync host batch (workbook ctx));
        pending := [];
        batches := batches ctx ++ [batch] |}).
Proof.
  cbv zeta. unfold captureRange, range_loads, sheet_read, mbind, Async_bind,
    queue, sync, loaded.
  destruct sheetName_ as [[|c rest]|]; cbn;
    rewrite <- app_assoc; cbn;
    destruct (host_sync host _ _) as [[thrown|] w]; reflexivity.
Qed.

Lemma captureSelection_run {W} (host : Host W) (ctx : RequestContext W) :
  let batch := pending ctx ++ range_loads SelectedRange ActiveWorksheet in
  captureSelection host ctx
  = (match fst (host_sync host batch (workbook ctx)) with
     | Some thrown => Throw thrown
     | None =>
         Return (captured_from host SelectedRange ActiveWorksheet
                   (snd (host_sync host batch (workbook ctx))))
     end,
     {| workbook := snd (host_sync host batch (workbook ctx));
        pending := [];
        batches := batches ctx ++ [batch] |}).
Proof.
  cbv zeta. unfold captureSelection, range_loads, mbind, Async_bind,
    queue, sync, loaded. cbn. rewrite <- app_assoc. cbn.
  destruct (host_sync host _ _) as [[thrown|] w]; reflexivity.
Qed.

End CaptureFacts.

(** X11.  [captureRange] only reads: it hands the host one batch, made of
    what was queued before and the two loads of the range and of its sheet,
    and throws what the host's [sync] throws.  The sheet is the active one
    when no sheet name is given and also when the name is the empty string;
    the address of the capture it returns has no sheet prefix left. *)
Theorem captureRange_reads :
  forall W (host : Office.Host W) (address : string)
         (sheetName : option string) (ctx : Office.RequestContext W),
  exists sheet,
    sheet = match sheetName with
            | None => Office.ActiveWorksheet
            | Some "" => Office.ActiveWorksheet
            | Some name => Office.ItemWorksheet name
            end
    /\ Office.batches (snd (Lib.captureRange host address sheetName ctx))
       = Office.batches ctx
         ++ [Office.pending ctx
             ++ [Office.LoadRange (Office.RangeOf sheet address)
                   ["address"; "values"; "formulas"; "rowCount"; "columnCount"];
                 Office.LoadSheet sheet ["name"]]]
    /\ (forall captured ctx',
          Lib.captureRange host address sheetName ctx
          = (Js.Return captured, ctx') ->
          captured
          = Lib.captured_from host (Office.RangeOf sheet address) sheet
              (Office.workbook ctx')
          /\ Js.includes "!" (Lib.address captured) = false).
Proof.
  intros W host address sheetName ctx.
  exists (Statements.sheet_read sheetName).
  split; [destruct sheetName as [[|c rest]|]; reflexivity|].
  rewrite CaptureFacts.captureRange_run. cbn [snd Office.batches].
  split; [reflexivity|].
  intros captured ctx' Hrun.
  destruct (fst (Office.host_sync host _ _)); [discriminate|].
  injection Hrun as <- <-. split; [reflexivity|].
  apply AddressFacts.addressOnly_free.
Qed.

Lemma captureRange_reads_witness :
  exists captured ctx',
    Lib.captureRange (Hosts.quiet Hosts.data_B2_C3 ["Data"] 0) "B2:C3"
      (Some "Data") (Lib.fresh tt)
    = (Js.Return captured, ctx')
    /\ Js.includes "!" (Lib.address captured) = false.
Proof.
  destruct (captureRange_reads unit (Hosts.quiet Hosts.data_B2_C3 ["Data"] 0)
              "B2:C3" (Some "Data") (Lib.fresh tt)) as (sheet & _ & _ & Hcaptured).
  eexists _, _. split; [reflexivity|].
  eapply Hcaptured. reflexivity.
Defined.

(** ** Fresh names and new sheets *)

Module FreshFacts.
Import Office Lib Spec.

Lemma uniqueSheetName_fresh (steps : nat) (names : list string)
      (baseName unique : string) :
  uniqueSheetName steps names baseName = Some unique ->
  ~ in_use names unique
  /\ (unique = baseName \/ exists k, 2 <= k /\ unique = numbered baseName k).
Proof.
  unfold uniqueSheetName. cbv zeta.
  destruct (has _ (Js.toLowerCase baseName)) eqn:Hbase; cbn [negb].
  - destruct (countUp _ _ _ _) as [found|] eqn:Hloop; [|discriminate].
    intros [= <-].
    apply NameFacts.countUp_stops in Hloop as (Hle & Hfree & _).
    split; [apply NameFacts.has_not_in_use; exact Hfree|]. right. eauto.
  - intros [= <-]. split; [apply NameFacts.has_not_in_use; exact Hbase|].
    left. reflexivity.
Qed.

Lemma generateUniqueSheetName_returned {W} (host : Host W) (baseName : string)
      (ctx : RequestContext W) (unique : string) (ctx' : RequestContext W) :
  generateUniqueSheetName host baseName ctx = (Return unique, ctx') ->
  uniqueSheetName (enough_steps (sheets_names host (workbook ctx')))
    (sheets_names host (workbook ctx')) baseName = Some unique
  /\ batches ctx' = batches ctx ++ [pending ctx ++ [LoadSheets ["items/name"]]].
Proof.
  unfold generateUniqueSheetName, mbind, Async_bind, mret, Async_ret, queue,
    sync, loaded, still_running.
  cbn -[uniqueSheetName enough_steps].
  destruct (host_sync host _ _) as [[thrown|] w1];
    cbn -[uniqueSheetName enough_steps]; [discriminate|].
  destruct (uniqueSheetName _ _ _) as [found|] eqn:Hfound; [|discriminate].
  intros [= <- <-]. cbn [workbook batches]. auto.
Qed.

End FreshFacts.

(** X12.  The name that [generateUniqueSheetName] returns is not the name of
    any sheet that the host reported, upper and lower case not told apart;
    it is the base name or the base name followed by a number from 2 on in
    parentheses; and the function has only read: one batch with the load of
    the sheet names. *)
Theorem generateUniqueSheetName_fresh :
  forall W (host : Office.Host W) (baseName : string)
         (ctx : Office.RequestContext W) (unique : string)
         (ctx' : Office.RequestContext W),
    Lib.generateUniqueSheetName host baseName ctx = (Js.Return unique, ctx') ->
    ~ Spec.in_use (Office.sheets_names host (Office.workbook ctx')) unique
    /\ (unique = baseName
        \/ exists k, 2 <= k /\ unique = Lib.numbered baseName k)
    /\ Office.batches ctx'
       = Office.batches ctx
         ++ [Office.pending ctx ++ [Office.LoadSheets ["items/name"]]].
Proof.
  intros W host baseName ctx unique ctx' Hrun.
  apply FreshFacts.generateUniqueSheetName_returned in Hrun as [Hunique Hbatches].
  apply FreshFacts.uniqueSheetName_fresh in Hunique as [Hfresh Hshape].
  auto.
Qed.

Lemma generateUniqueSheetName_fresh_witness :
  exists ctx',
    Lib.generateUniqueSheetName
      (Hosts.quiet Hosts.data_B2_C3 ["Data"; "BACKUP"; "backup (2)"] 0)
      "Backup" (Lib.fresh tt)
    = (Js.Return "Backup (3)", ctx')
    /\ ~ Spec.in_use ["Data"; "BACKUP"; "backup (2)"] "Backup (3)".
Proof.
  eexists. split; [vm_compute; reflexivity|].
  eapply (generateUniqueSheetName_fresh unit
            (Hosts.quiet Hosts.data_B2_C3 ["Data"; "BACKUP"; "backup (2)"] 0)
            "Backup" (Lib.fresh tt) "Backup (3)").
  vm_compute. reflexivity.
Defined.

(** X13.  [createSheet] adds nothing when its first [sync], the load of the
    active sheet's position, throws: it throws the same error and the load is
    the only batch it has handed to the host.  When the load passes it hands
    over exactly one more batch, which starts with the [add] of the sheet,
    and it returns the proxy of the added sheet unless that second [sync]
    throws. *)
Theorem createSheet_outcome :
  forall W (host : Office.Host W) (options : Lib.CreateSheetOptions)
         (ctx : Office.RequestContext W),
    let load :=
      Office.pending ctx
      ++ [Office.LoadSheet Office.ActiveWorksheet ["position"]] in
    (forall thrown w1,
       Office.host_sync host load (Office.workbook ctx) = (Some thrown, w1) ->
       Lib.createSheet host options ctx
       = (Js.Throw thrown,
          {| Office.workbook := w1; Office.pending := [];
             Office.batches := Office.batches ctx ++ [load] |}))
    /\ (forall w1,
          Office.host_sync host load (Office.workbook ctx) = (None, w1) ->
          exists positioning raised w2,
            Office.host_sync host
              (Office.AddSheet (Lib.name options) :: positioning) w1
            = (raised, w2)
            /\ Lib.createSheet host options ctx
               = (match raised with
                  | Some thrown => Js.Throw thrown
                  | None => Js.Return (Office.AddedWorksheet (Lib.name options))
                  end,
                  {| Office.workbook := w2; Office.pending := [];
                     Office.batches :=
                       Office.batches ctx
                       ++ [load; Office.AddSheet (Lib.name options)
                                 :: positioning] |})).
Proof.
  intros W host options ctx load. split.
  - intros thrown w1 Hload.
    exact (SheetFacts.createSheet_load_throws host options ctx thrown w1 Hload).
  - intros w1 Hload.
    rewrite (SheetFacts.createSheet_run host options ctx w1 Hload).
    exists (Spec.placement options
              (Office.sheet_position host w1 Office.ActiveWorksheet)).
    destruct (Office.host_sync host _ w1) as [raised w2].
    exists raised, w2. split; reflexivity.
Qed.

Lemma createSheet_outcome_witness :
  Lib.createSheet
    (Hosts.failing 0 (Js.ErrorObject "The workbook is protected.")
       Hosts.data_B2_C3 ["Data"] 0)
    {| Lib.name := Some "Copy of Data"; Lib.position := None |}
    (Lib.fresh 0%nat)
  = (Js.Throw (Js.ErrorObject "The workbook is protected."),
     {| Office.workbook := 1%nat; Office.pending := [];
        Office.batches :=
          [[Office.LoadSheet Office.ActiveWorksheet ["position"]]] |}).
Proof.
  apply (proj1 (createSheet_outcome nat
                  (Hosts.failing 0 (Js.ErrorObject "The workbook is protected.")
                     Hosts.data_B2_C3 ["Data"] 0)
                  {| Lib.name := Some "Copy of Data"; Lib.position := None |}
                  (Lib.fresh 0%nat))).
  reflexivity.
Defined.

(** ** Runs of the composed automations *)

(** X14.  Every run of [copySelectionToNewSheet] that returns success has
    captured a selection with rows and columns, has found a name that no
    existing sheet has (from the [sheetName] option, or from
    ["Copy of {sourceSheet}"] when the option is missing or empty), has added
    a sheet of that name right after the active one, has written the capture
    once on the new sheet at the captured address, and reports that name;
    nothing else was handed to the host. *)
Theorem copySelectionToNewSheet_any_success :
  forall W (host : Office.Host W) (options : Lib.CopyToNewSheetOptions) (w : W)
         (result : Lib.AutomationResult Lib.CopyToNewSheetResult)
         (ctx' : Office.RequestContext W),
    Lib.copySelectionToNewSheet host options (Lib.fresh w)
    = (Js.Return result, ctx') ->
    Lib.success result = true ->
    exists w1 w2 w3 unique,
      let cap :=
        Lib.captured_from host Office.SelectedRange Office.ActiveWorksheet w1 in
      let names := Office.sheets_names host w2 in
      Office.host_sync host Spec.capture_loads w = (None, w1)
      /\ Office.host_sync host [Office.LoadSheets ["items/name"]] w1 = (None, w2)
      /\ Office.host_sync host
           [Office.LoadSheet Office.ActiveWorksheet ["position"]] w2 = (None, w3)
      /\ ~ Spec.degenerate cap
      /\ Lib.uniqueSheetName (Lib.enough_steps names) names
           (Js.or_else (Lib.sheetName options)
                       ("Copy of " +:+ Lib.sourceSheet cap)) = Some unique
      /\ ~ Spec.in_use names unique
      /\ result = Lib.succeeded {| Lib.captured := cap;
                                   Lib.newSheetName := unique;
                                   Lib.pastedAddress := Lib.address cap |}
      /\ Office.batches ctx'
         = Spec.copy_batches cap unique
             (Office.sheet_position host w3 Office.ActiveWorksheet)
             (default false (Lib.valuesOnly options))
             (bool_decide (Lib.activateNewSheet options <> Some false)).
Proof.
  intros W host options w result ctx' Hrun Hsuccess.
  unfold Spec.capture_loads, Spec.degenerate.
  AutomationFacts.unfold_async. AutomationFacts.simpl_run Hrun.
  AutomationFacts.next_sync_in Hrun;
    [injection Hrun as <- _; discriminate Hsuccess|].
  match type of Hrun with
  | context [if ?test then _ else _] => destruct test eqn:Hdegenerate
  end; AutomationFacts.simpl_run Hrun.
  { injection Hrun as <- _. discriminate Hsuccess. }
  AutomationFacts.next_sync_in Hrun;
    [injection Hrun as <- _; discriminate Hsuccess|].
  destruct (Lib.uniqueSheetName _ _ _) as [unique|] eqn:Hunique;
    AutomationFacts.simpl_run Hrun; [|discriminate Hrun].
  AutomationFacts.next_sync_in Hrun;
    [injection Hrun as <- _; discriminate Hsuccess|].
  AutomationFacts.next_sync_in Hrun;
    [injection Hrun as <- _; discriminate Hsuccess|].
  unfold Lib.pasteAddress in Hrun. rewrite PasteFacts.or_else_same in Hrun.
  AutomationFacts.next_sync_in Hrun;
    [injection Hrun as <- _; discriminate Hsuccess|].
  eexists _, _, _, unique. cbv zeta.
  split; [reflexivity|]. split; [eassumption|]. split; [eassumption|].
  split.
  { apply orb_false_iff in Hdegenerate as [Hrows Hcolumns].
    apply Z.eqb_neq in Hrows, Hcolumns. tauto. }
  split; [exact Hunique|].
  split; [apply (FreshFacts.uniqueSheetName_fresh _ _ _ _ Hunique)|].
  unfold Spec.copy_batches, Lib.pasteCommand in *.
  case_bool_decide; AutomationFacts.simpl_run Hrun.
  - AutomationFacts.next_sync_in Hrun;
      [injection Hrun as <- _; discriminate Hsuccess|].
    injection Hrun as <- <-. split; reflexivity.
  - injection Hrun as <- <-. split; reflexivity.
Qed.

Lemma copySelectionToNewSheet_any_success_witness :
  exists result ctx',
    Lib.copySelectionToNewSheet
      (Hosts.quiet Hosts.data_B2_C3 ["Data"; "Copy of Data"] 0)
      {| Lib.sheetName := None; Lib.valuesOnly := Some true;
         Lib.activateNewSheet := Some false |} (Lib.fresh tt)
    = (Js.Return result, ctx')
    /\ Lib.newSheetName <$> Lib.data result = Some "Copy of Data (2)"
    /\ Office.batches ctx'
       = Spec.copy_batches Hosts.data_B2_C3 "Copy of Data (2)" 0 true false.
Proof.
  pose (host := Hosts.quiet Hosts.data_B2_C3 ["Data"; "Copy of Data"] 0).
  pose (options := {| Lib.sheetName := None; Lib.valuesOnly := Some true;
                      Lib.activateNewSheet := Some false |}).
  assert (Lib.copySelectionToNewSheet host options (Lib.fresh tt)
          = (Js.Return
               (Lib.succeeded {| Lib.captured := Hosts.data_B2_C3;
                                 Lib.newSheetName := "Copy of Data (2)";
                                 Lib.pastedAddress := "B2:C3" |}),
             {| Office.workbook := tt; Office.pending := [];
                Office.batches :=
                  Spec.copy_batches Hosts.data_B2_C3 "Copy of Data (2)" 0
                    true false |})) as Hrun
    by (vm_compute; reflexivity).
  eexists _, _. split; [exact Hrun|].
  destruct (copySelectionToNewSheet_any_success unit host options tt _ _
              Hrun eq_refl)
    as (w1 & w2 & w3 & unique & _ & _ & _ & _ & Hunique & _ & Hresult & _).
  split; reflexivity.
Defined.

(** X15.  There is no rollback in [copySelectionToNewSheet]: when the paste
    on the new sheet throws, the automation returns the failure with the
    error's message, the batch that added the sheet has already gone to the
    host, and nothing is handed over after the failed write (no activation,
    no removal of the sheet). *)
Theorem copySelectionToNewSheet_paste_fails :
  forall W (host : Office.Host W) (options : Lib.CopyToNewSheetOptions)
         (w w1 w2 w3 w4 w5 : W) (unique : string) (thrown : Js.Thrown),
    let cap :=
      Lib.captured_from host Office.SelectedRange Office.ActiveWorksheet w1 in
    let names := Office.sheets_names host w2 in
    let active := Office.sheet_position host w3 Office.ActiveWorksheet in
    let newSheet := Office.AddedWorksheet (Some unique) in
    let write :=
      Lib.pasteCommand cap (Office.RangeOf newSheet (Lib.address cap))
        (default false (Lib.valuesOnly options)) in
    Office.host_sync host Spec.capture_loads w = (None, w1) ->
    ~ Spec.degenerate cap ->
    Office.host_sync host [Office.LoadSheets ["items/name"]] w1 = (None, w2) ->
    Lib.uniqueSheetName (Lib.enough_steps names) names
      (Js.or_else (Lib.sheetName options) ("Copy of " +:+ Lib.sourceSheet cap))
    = Some unique ->
    Office.host_sync host
      [Office.LoadSheet Office.ActiveWorksheet ["position"]] w2 = (None, w3) ->
    Office.host_sync host
      [Office.AddSheet (Some unique); Office.SetPosition newSheet (active + 1)]
      w3 = (None, w4) ->
    Office.host_sync host [write] w4 = (Some thrown, w5) ->
    Lib.copySelectionToNewSheet host options (Lib.fresh w)
    = (Js.Return (Lib.failure (Js.error_text thrown)),
       {| Office.workbook := w5;
          Office.pending := [];
          Office.batches :=
            [Spec.capture_loads;
             [Office.LoadSheets ["items/name"]];
             [Office.LoadSheet Office.ActiveWorksheet ["position"]];
             [Office.AddSheet (Some unique);
              Office.SetPosition newSheet (active + 1)];
             [write]] |}).
Proof.
  intros W host options w w1 w2 w3 w4 w5 unique thrown cap names active
         newSheet write Hcapture Hcells Hnames Hunique Hposition Hadd Hwrite.
  subst cap names active newSheet write.
  unfold Spec.capture_loads, Spec.degenerate in *.
  AutomationFacts.unfold_async. AutomationFacts.simpl_goal.
  rewrite Hcapture. AutomationFacts.simpl_goal.
  match goal with
  | |- context [if ?test then _ else _] =>
      assert (test = false) as ->
  end.
  { apply orb_false_iff. split; apply Z.eqb_neq; tauto. }
  AutomationFacts.simpl_goal. rewrite Hnames. AutomationFacts.simpl_goal.
  rewrite Hunique. AutomationFacts.simpl_goal.
  rewrite Hposition. AutomationFacts.simpl_goal.
  rewrite Hadd. AutomationFacts.simpl_goal.
  unfold Lib.pasteAddress. rewrite PasteFacts.or_else_same.
  rewrite Hwrite. reflexivity.
Qed.

Lemma copySelectionToNewSheet_paste_fails_witness :
  exists ctx',
    Lib.copySelectionToNewSheet
      (Hosts.failing 4 (Js.ErrorObject "The range is protected.")
         Hosts.data_B2_C3 ["Data"] 0)
      {| Lib.sheetName := Some "Backup"; Lib.valuesOnly := None;
         Lib.activateNewSheet := None |} (Lib.fresh 0%nat)
    = (Js.Return (Lib.failure "The range is protected."), ctx')
    /\ [Office.AddSheet (Some "Backup");
        Office.SetPosition (Office.AddedWorksheet (Some "Backup")) 1]
       ∈ Office.batches ctx'.
Proof.
  eexists. split.
  - apply (copySelectionToNewSheet_paste_fails nat
             (Hosts.failing 4 (Js.ErrorObject "The range is protected.")
                Hosts.data_B2_C3 ["Data"] 0)
             {| Lib.sheetName := Some "Backup"; Lib.valuesOnly := None;
                Lib.activateNewSheet := None |}
             0%nat 1%nat 2%nat 3%nat 4%nat 5%nat "Backup"
             (Js.ErrorObject "The range is protected."));
      try reflexivity.
    intros [Hrows | Hcolumns]; discriminate.
  - cbn [Office.batches]. do 3 apply list_elem_of_further.
    apply list_elem_of_here.
Defined.

Module DuplicateFacts.
Import Office Lib Spec Statements.

Lemma duplicateSelection_run {W} (host : Host W) (target : string)
      (valuesOnly_ : option bool) (ctx : RequestContext W) :
  duplicateSelection host target valuesOnly_ ctx
  = match host_sync host capture_loads (workbook ctx) with
    | (Some thrown, w1) =>
        (Return (failure (Js.error_text thrown)),
         {| workbook := w1; pending := [];
            batches := batches ctx ++ [capture_loads] |})
    | (None, w1) =>
        let cap := captured_from host SelectedRange ActiveWorksheet w1 in
        let write := duplicate_write cap target valuesOnly_ in
        match host_sync host [write] w1 with
        | (Some thrown, w2) =>
            (Return (failure (Js.error_text thrown)),
             {| workbook := w2; pending := [];
                batches := batches ctx ++ [capture_loads; [write]] |})
        | (None, w2) =>
            (Return (succeeded {| sourceAddress := address cap;
                                  targetAddress := target |}),
             {| workbook := w2; pending := [];
                batches := batches ctx ++ [capture_loads; [write]] |})
        end
    end.
Proof.
  unfold capture_loads, duplicate_write.
  AutomationFacts.unfold_async. AutomationFacts.simpl_goal.
  AutomationFacts.next_sync; [reflexivity|].
  unfold pasteAddress.
  AutomationFacts.next_sync; rewrite <- app_assoc; reflexivity.
Qed.

End DuplicateFacts.

(** X16.  [duplicateSelection] hands the host at most two batches: the loads
    of the capture and, when they pass, one write of the capture on the
    active sheet at the target address; it never adds or activates a sheet.
    A throw of either [sync] becomes the failure with the error's message
    (after a failed capture nothing is written); otherwise the result is the
    success that carries the captured address and the target address as
    given. *)
Theorem duplicateSelection_steps :
  forall W (host : Office.Host W) (target : string) (valuesOnly : option bool)
         (ctx : Office.RequestContext W),
    (forall thrown w1,
       Office.host_sync host Spec.capture_loads (Office.workbook ctx)
       = (Some thrown, w1) ->
       Lib.duplicateSelection host target valuesOnly ctx
       = (Js.Return (Lib.failure (Js.error_text thrown)),
          {| Office.workbook := w1; Office.pending := [];
             Office.batches := Office.batches ctx ++ [Spec.capture_loads] |}))
    /\ (forall w1 raised w2,
          let cap :=
            Lib.captured_from host Office.SelectedRange Office.ActiveWorksheet
              w1 in
          let write :=
            Lib.pasteCommand cap
              (Office.RangeOf Office.ActiveWorksheet
                 (Js.or_else (Some target) (Lib.address cap)))
              (default false valuesOnly) in
          Office.host_sync host Spec.capture_loads (Office.workbook ctx)
          = (None, w1) ->
          Office.host_sync host [write] w1 = (raised, w2) ->
          Lib.duplicateSelection host target valuesOnly ctx
          = (Js.Return
               match raised with
               | Some thrown => Lib.failure (Js.error_text thrown)
               | None =>
                   Lib.succeeded {| Lib.sourceAddress := Lib.address cap;
                                    Lib.targetAddress := target |}
               end,
             {| Office.workbook := w2; Office.pending := [];
                Office.batches :=
                  Office.batches ctx ++ [Spec.capture_loads; [write]] |})).
Proof.
  intros W host target valuesOnly ctx. split.
  - intros thrown w1 Hcapture.
    rewrite DuplicateFacts.duplicateSelection_run, Hcapture. reflexivity.
  - intros w1 raised w2 cap write Hcapture Hwrite.
    rewrite DuplicateFacts.duplicateSelection_run, Hcapture. cbv zeta.
    unfold Statements.duplicate_write. fold cap. fold write.
    rewrite Hwrite. destruct raised; reflexivity.
Qed.

Lemma duplicateSelection_steps_witness :
  Lib.duplicateSelection (Hosts.quiet Hosts.data_B2_C3 ["Data"] 0) "E2"
    (Some true) (Lib.fresh tt)
  = (Js.Return (Lib.succeeded {| Lib.sourceAddress := "B2:C3";
                                 Lib.targetAddress := "E2" |}),
     {| Office.workbook := tt; Office.pending := [];
        Office.batches :=
          [Spec.capture_loads;
           [Office.SetValues
              (Office.RangeOf Office.ActiveWorksheet "E2")
              (Lib.values Hosts.data_B2_C3)]] |}).
Proof.
  apply (proj2 (duplicateSelection_steps unit
                  (Hosts.quiet Hosts.data_B2_C3 ["Data"] 0) "E2" (Some true)
                  (Lib.fresh tt)) tt None tt); reflexivity.
Defined.

(** X17.  With the empty string as target address, [duplicateSelection]
    writes the capture back over the range it was captured from (the paste
    falls back to the captured address), and still reports the empty string
    as [targetAddress]. *)
Theorem duplicateSelection_empty_target :
  forall W (host : Office.Host W) (valuesOnly : option bool)
         (ctx : Office.RequestContext W) (w1 w2 : W),
    let cap :=
      Lib.captured_from host Office.SelectedRange Office.ActiveWorksheet w1 in
    let write :=
      Lib.pasteCommand cap
        (Office.RangeOf Office.ActiveWorksheet (Lib.address cap))
        (default false valuesOnly) in
    Office.host_sync host Spec.capture_loads (Office.workbook ctx) = (None, w1) ->
    Office.host_sync host [write] w1 = (None, w2) ->
    Lib.duplicateSelection host "" valuesOnly ctx
    = (Js.Return (Lib.succeeded {| Lib.sourceAddress := Lib.address cap;
                                   Lib.targetAddress := "" |}),
       {| Office.workbook := w2; Office.pending := [];
          Office.batches :=
            Office.batches ctx ++ [Spec.capture_loads; [write]] |}).
Proof.
  intros W host valuesOnly ctx w1 w2 cap write Hcapture Hwrite.
  rewrite DuplicateFacts.duplicateSelection_run, Hcapture. cbv zeta.
  unfold Statements.duplicate_write. cbn [Js.or_else].
  fold cap. fold write. rewrite Hwrite. reflexivity.
Qed.

Lemma duplicateSelection_empty_target_witness :
  Lib.duplicateSelection (Hosts.quiet Hosts.data_B2_C3 ["Data"] 0) "" None
    (Lib.fresh tt)
  = (Js.Return (Lib.succeeded {| Lib.sourceAddress := "B2:C3";
                                 Lib.targetAddress := "" |}),
     {| Office.workbook := tt; Office.pending := [];
        Office.batches :=
          [Spec.capture_loads;
           [Office.SetFormulas
              (Office.RangeOf Office.ActiveWorksheet "B2:C3")
              (Lib.formulas Hosts.data_B2_C3)]] |}).
Proof.
  apply (duplicateSelection_empty_target unit
           (Hosts.quiet Hosts.data_B2_C3 ["Data"] 0) None (Lib.fresh tt) tt tt);
    reflexivity.
Defined.

(** X18.  An empty [sheetName] option counts as no option: the base name of
    the new sheet is then ["Copy of {sourceSheet}"], and
    [copySelectionToNewSheet] runs exactly as it does without the option. *)
Theorem copySelectionToNewSheet_empty_sheetName :
  forall W (host : Office.Host W) (valuesOnly activateNewSheet : option bool)
         (ctx : Office.RequestContext W),
    Lib.copySelectionToNewSheet host
      {| Lib.sheetName := Some ""; Lib.valuesOnly := valuesOnly;
         Lib.activateNewSheet := activateNewSheet |} ctx
    = Lib.copySelectionToNewSheet host
        {| Lib.sheetName := None; Lib.valuesOnly := valuesOnly;
           Lib.activateNewSheet := activateNewSheet |} ctx.
Proof. reflexivity. Qed.

(** ** From the host's address to the references of the cells *)

Module StartFacts.
Import Coord StringFacts.
Local Open Scope Z_scope.

Lemma includes_outside (p : ascii -> bool) (sep : ascii) (s : string) :
  p sep = false -> Js.all_chars p s = true -> Js.includes sep s = false.
Proof.
  intros Hsep. induction s as [|c s IH]; intros Hall; [reflexivity|].
  cbn in Hall. apply andb_true_iff in Hall as [Hc Hs].
  cbn [Js.includes]. rewrite (IH Hs), orb_false_r.
  destruct (Ascii.eqb_spec c sep) as [-> | Hne]; [congruence|reflexivity].
Qed.

(** A reference has neither of the two separators in it. *)
Lemma reference_free (letters digits : string) (sep : ascii) :
  Js.is_upper sep = false -> Js.is_digit sep = false ->
  Js.all_chars Js.is_upper letters = true ->
  Js.all_chars Js.is_digit digits = true ->
  Js.includes sep (letters +:+ digits) = false.
Proof.
  intros Hupper Hdigit Hletters Hdigits.
  rewrite AddressFacts.includes_append.
  rewrite (includes_outside Js.is_upper), (includes_outside Js.is_digit);
    auto.
Qed.

Lemma startCellOf_first (first rest : string) :
  Js.includes ":" first = false ->
  Taskpane.startCellOf (first +:+ ":" +:+ rest) = first
  /\ Taskpane.startCellOf first = first.
Proof.
  intros Hfree. unfold Taskpane.startCellOf, Js.split. split.
  - rewrite AddressFacts.split_loop_free by exact Hfree.
    rewrite append_cons, append_nil. cbn [Js.split_loop].
    change (Ascii.eqb ":" ":") with true. cbv iota.
    cbn [lookup list_lookup default from_option].
    apply AddressFacts.rev_rev_app.
  - rewrite <- (append_empty_r first) at 1.
    rewrite AddressFacts.split_loop_free by exact Hfree.
    cbn [Js.split_loop lookup list_lookup default from_option].
    apply AddressFacts.rev_rev_app.
Qed.

Lemma addressOnly_prefix (sheet address_ : string) :
  Js.includes "!" sheet = false ->
  Js.includes "!" address_ = false ->
  Lib.addressOnly (sheet +:+ "!" +:+ address_) = address_.
Proof.
  intros Hsheet Haddress.
  pose proof (AddressFacts.addressOnly_second_segment sheet address_ None
                Hsheet Haddress) as Hstrip.
  cbv iota in Hstrip. rewrite append_empty_r in Hstrip. exact Hstrip.
Qed.

(** The two parts of a start cell that is itself a reference. *)
Lemma parts_of_reference (letters : string) (n : Z) :
  letters <> "" -> Js.all_chars Js.is_upper letters = true ->
  0 <= n <= Js.exact_limit ->
  startCol (letters +:+ pretty n) = letters
  /\ startRow (letters +:+ pretty n) = Js.Finite n.
Proof.
  intros Hne Hupper Hn.
  destruct (RefFacts.parseStartCell_reference letters n Hne Hupper Hn)
    as [_ Hparse].
  unfold parseStartCell in Hparse. injection Hparse as Hcol Hrow. auto.
Qed.

End StartFacts.

(** X19.  For a host address ["{sheet}!{first}:{last}"] whose first cell is a
    reference (at most eleven capital letters, then a row number up to
    [2 ** 53] without leading zeros), the cell loop starts from that first
    cell: at an offset (row, col) that takes neither the column number nor
    the row number beyond [2 ** 53], the reference composed has the letters
    of the first cell's column moved right by [col] and the first cell's row
    plus [row], and at offset (0, 0) it is the first cell's own reference. *)
Theorem references_start_at_first_cell :
  forall (sheet letters last : string) (n : Z),
    Js.includes "!" sheet = false ->
    Js.includes "!" last = false ->
    letters <> "" -> Js.all_chars Js.is_upper letters = true ->
    (String.length letters <= 11)%nat ->
    0 <= n <= Js.exact_limit ->
    let startCell :=
      Taskpane.startCellOf
        (Lib.addressOnly
           (sheet +:+ "!" +:+ (letters +:+ pretty n) +:+ ":" +:+ last)) in
    startCell = letters +:+ pretty n
    /\ Coord.cellRef startCell (Js.Finite 0) (Js.Finite 0)
       = Js.Return (letters +:+ pretty n)
    /\ exists column,
         Coord.columnToNumber letters = Js.Finite column
         /\ forall row col,
              0 <= row -> 0 <= col ->
              column + col <= Js.exact_limit -> n + row <= Js.exact_limit ->
              exists moved,
                Coord.getColumnLetter (Js.Finite (column + col))
                = Js.Return moved
                /\ Coord.cellRef startCell (Js.Finite row) (Js.Finite col)
                   = Js.Return (moved +:+ pretty (n + row)).
Proof.
  intros sheet letters last n Hsheet Hlast Hne Hupper Hlength Hn startCell.
  destruct (NumeralFacts.pretty_Z_numeral n ltac:(lia)) as (_ & Hdigits & _).
  assert (startCell = letters +:+ pretty n) as ->.
  { subst startCell.
    rewrite (StartFacts.addressOnly_prefix sheet
               ((letters +:+ pretty n) +:+ ":" +:+ last) Hsheet).
    - apply StartFacts.startCellOf_first.
      apply StartFacts.reference_free; auto.
    - rewrite !AddressFacts.includes_append.
      rewrite (StartFacts.includes_outside Js.is_upper),
        (StartFacts.includes_outside Js.is_digit), Hlast; auto. }
  destruct (StartFacts.parts_of_reference letters n Hne Hupper Hn)
    as [Hcol Hrow].
  destruct (ColumnFacts.columnToNumber_short letters Hupper Hlength)
    as (column & Hcolumn & Hbound & Hpos & Hletters).
  assert (forall row col,
            0 <= row -> 0 <= col ->
            column + col <= Js.exact_limit -> n + row <= Js.exact_limit ->
            exists moved,
              Coord.getColumnLetter (Js.Finite (column + col)) = Js.Return moved
              /\ Coord.cellRef (letters +:+ pretty n) (Js.Finite row)
                               (Js.Finite col)
                 = Js.Return (moved +:+ pretty (n + row))) as Hany.
  { intros row col Hr Hc Hcolumns Hrows.
    destruct (RefFacts.cellRef_exact (letters +:+ pretty n) row col column n)
      as (moved & Hmoved & _ & _ & _ & Href); try assumption.
    - rewrite Hcol. exact Hcolumn.
    - exists moved. auto. }
  split; [reflexivity|]. split.
  - destruct (Hany 0 0) as (moved & Hmoved & Href); try lia.
    rewrite Z.add_0_r in Hmoved, Href. rewrite Hletters in Hmoved.
    injection Hmoved as <-. exact Href.
  - exists column. split; [exact Hcolumn | exact Hany].
Qed.

Lemma references_start_at_first_cell_witness :
  Coord.cellRef
    (Taskpane.startCellOf
       (Lib.addressOnly ("Data" +:+ "!" +:+ ("B" +:+ pretty 2) +:+ ":" +:+ "C3")))
    (Js.Finite 0) (Js.Finite 0)
  = Js.Return ("B" +:+ pretty 2).
Proof.
  apply (references_start_at_first_cell "Data" "B" "C3" 2);
    try (reflexivity || discriminate); try (cbn; lia).
  unfold Js.exact_limit. lia.
Defined.
